(** * Weather recommendation engine: a shallow embedding

    The development follows [recommendations.py] (the rule evaluators for the
    agriculture and travel personas), [weather_service.py] (the forecast
    aggregator [_parse_forecast]) and [config.py] (the threshold tables).

    Modelling conventions.
    - Python numbers that come out of JSON are modelled as rationals [Q]:
      every [int] and every finite [float] is one.  The comparisons of the
      source ([<], [<=], [>], [>=]) are exact in Python and become the
      decidable tests [Qltb] and [Qle_bool].  The arithmetic of the source
      on floats ([+], [*], [/], [sum]) rounds its exact result to the
      nearest binary64 number, [Py.rnd]; sums of integers are exact.
    - A Python [dict] used as a record becomes a [Record]; a key read with
      [.get(key, default)] becomes an [option] field.
    - A Python [dict] used as a map ([daily_data]) becomes a [gmap].
    - Operations of the source that can raise ([min], [max] of an empty
      sequence, division by a zero length, indexing out of range) return in
      the error type [result].
    - Text is kept as [string] (bytes of the UTF-8 source text); the
      [f'{x:.1f}'] formatting is [fmt1]. *)

From Stdlib Require Import QArith Qabs Qpower Ascii String.
From stdpp Require Import base list gmap strings sorting pretty.

Local Open Scope Z_scope.

(** ** Python runtime pieces used by the source *)

Module Py.

Inductive exn : Type :=
| KeyError | ValueError | ZeroDivisionError | IndexError.

Inductive result (A : Type) : Type :=
| Ok (a : A)
| Raise (e : exn).
Arguments Ok {A} a.
Arguments Raise {A} e.

Definition bind {A B} (m : result A) (k : A → result B) : result B :=
  match m with
  | Ok a => k a
  | Raise e => Raise e
  end.

(** [a < b] on numbers *)
Definition Qltb (a b : Q) : bool := negb (Qle_bool b a).

(** Nearest integer, ties to the even one *)
Definition round_half_even (q : Q) : Z :=
  let n := Qnum q in
  let d := Z.pos (Qden q) in
  let fl := n / d in
  let r2 := 2 * (n mod d) in
  if r2 <? d then fl
  else if d <? r2 then fl + 1
  else if Z.even fl then fl else fl + 1.

(** The integer part of the binary logarithm of [a > 0]: the [k] with
    [2 ^ k <= a < 2 ^ (k + 1)] *)
Definition ilog2 (a : Q) : Z :=
  let k := Z.log2 (Qnum a) - Z.log2 (Z.pos (Qden a)) in
  if Qle_bool (2 ^ k) a then k else k - 1.

(** The unit in the last place of the floats next to [q]: with a
    significand of 53 bits, [2 ^ (k - 52)] for [2 ^ k <= |q| < 2 ^ (k + 1)],
    and [2 ^ -1074] in the subnormal range *)
Definition ulp (q : Q) : Q := (2 ^ Z.max (ilog2 (Qabs q) - 52) (-1074))%Q.

(** Rounding to the nearest [float] (IEEE 754 binary64), ties to the even
    significand: what Python does with the exact result of an operation
    on floats, and with an [int] that meets a [float].  The
    exponent has no upper bound here: overflow to [inf], [nan] and the
    sign of zero are not modelled. *)
Definition rnd (q : Q) : Q :=
  if Qeq_bool q 0 then 0%Q
  else Qred (inject_Z (round_half_even (q / ulp q)) * ulp q).

(** [a + b], [a * b] and [a / b] on floats *)
Definition add (a b : Q) : Q := rnd (a + b).
Definition mul (a b : Q) : Q := rnd (a * b).
Definition truediv (a b : Q) : Q := rnd (a / b).

(** [sum(xs)] on floats: starts from 0 and adds from the left, rounding
    each addition *)
Definition sum (xs : list Q) : Q := fold_left add xs 0%Q.

(** [sum(xs)] on integers, which is exact *)
Definition sum_int (xs : list Z) : Z := fold_left Z.add xs 0.

(** [min(xs)]: the first smallest element; [ValueError] on an empty
    sequence *)
Definition min (xs : list Q) : result Q :=
  match xs with
  | [] => Raise ValueError
  | x :: rest => Ok (fold_left (λ m y, if Qltb y m then y else m) rest x)
  end.

(** [max(xs)]: the first largest element; [ValueError] on an empty
    sequence *)
Definition max (xs : list Q) : result Q :=
  match xs with
  | [] => Raise ValueError
  | x :: rest => Ok (fold_left (λ m y, if Qltb m y then y else m) rest x)
  end.

(** [a / n] with [n] a length; [ZeroDivisionError] when [n = 0] *)
Definition div_len (a : Q) (n : nat) : result Q :=
  match n with
  | O => Raise ZeroDivisionError
  | S _ => Ok (truediv a (inject_Z (Z.of_nat n)))
  end.

(** [xs[i]] for [0 <= i]; [IndexError] out of range *)
Definition index {A} (xs : list A) (i : nat) : result A :=
  match xs !! i with
  | Some x => Ok x
  | None => Raise IndexError
  end.

(** [xs[:n]] for a Python integer [n]: a negative [n] counts from the
    end *)
Definition slice_to {A} (xs : list A) (n : Z) : list A :=
  if 0 <=? n then take (Z.to_nat n) xs
  else take (length xs - Z.to_nat (- n)) xs.

(** [s.lower()] on ASCII letters; other bytes are left as they are *)
Definition lower_ascii (c : ascii) : ascii :=
  let n := nat_of_ascii c in
  if ((65 <=? n)%nat && (n <=? 90)%nat)%bool then ascii_of_nat (n + 32) else c.

Fixpoint lower (s : string) : string :=
  match s with
  | EmptyString => EmptyString
  | String c t => String (lower_ascii c) (lower t)
  end.

(** [needle in hay] on strings *)
Fixpoint contains (needle hay : string) : bool :=
  String.prefix needle hay ||
  match hay with
  | EmptyString => false
  | String _ t => contains needle t
  end.

(** [f'{q:.1f}']: the number is taken as a float, and the exact value
    of the float is printed with one decimal, ties to the even digit *)
Definition fmt1 (q : Q) : string :=
  let q := rnd q in
  let t := round_half_even (Qabs q * 10) in
  (if Qltb q 0 then "-" else "") +:+
  pretty (t / 10) +:+ "." +:+ pretty (t mod 10).

(** [str(n)] for an integer *)
Definition str_int (n : Z) : string := pretty n.

(** A [datetime.datetime] value *)
Record datetime : Type := {
  year : Z; month : Z; day : Z; hour : Z; minute : Z; second : Z
}.

(** A [datetime.date] value: (year, month, day), compared
    lexicographically *)
Definition date : Type := Z * Z * Z.

Definition datetime_date (dt : datetime) : date := (year dt, month dt, day dt).

Definition pad2 (n : Z) : string :=
  if n <? 10 then "0" +:+ pretty n else pretty n.

(** [dt.strftime("%H:%M")] *)
Definition strftime_HM (dt : datetime) : string :=
  pad2 (hour dt) +:+ ":" +:+ pad2 (minute dt).

End Py.

#[global] Instance result_ret : MRet Py.result := @Py.Ok.
#[global] Instance result_bind : MBind Py.result := λ A B k m, Py.bind m k.

(** ** [config.py] *)

Module Config.

(** The keys of [AGRICULTURE_THRESHOLDS] *)
Record AgricultureThresholds : Type := {
  wind_speed_spray : Q;
  rain_threshold : Q;
  frost_temp : Q;
  heat_stress : Q;
  high_humidity : Q
}.

(** The keys of [TRAVEL_THRESHOLDS] *)
Record TravelThresholds : Type := {
  cold_weather : Q;
  hot_weather : Q;
  rain_warning : Q;
  wind_warning : Q
}.

Definition AGRICULTURE_THRESHOLDS : AgricultureThresholds := {|
  wind_speed_spray := 20;
  rain_threshold := 10;
  frost_temp := 2;
  heat_stress := 35;
  high_humidity := 80
|}.

Definition TRAVEL_THRESHOLDS : TravelThresholds := {|
  cold_weather := 10;
  hot_weather := 30;
  rain_warning := 5;
  wind_warning := 40
|}.

End Config.

(** ** The dictionaries that travel between the functions *)

(** One element of [data['list']] of the provider's forecast response, with
    the keys [_parse_forecast] reads: [item['dt']], [item['main'][...]],
    [item['wind']['speed']], [item['weather'][0][...]],
    [item['clouds']['all']] and the optional [rain] and [snow]
    dictionaries. *)
Module Item.
Record t : Type := {
  dt : Z;
  temp : Q;
  feels_like : Q;
  humidity : Z;
  pressure : Q;
  speed : Q;
  description : string;
  main : string;
  icon : string;
  clouds : Q;
  rain : option (gmap string Q);
  snow : option (gmap string Q)
}.
End Item.

(** The dictionary appended to [daily_data[date]] *)
Module Reading.
Record t : Type := {
  datetime : Py.datetime;
  temperature : Q;
  feels_like : Q;
  humidity : Z;
  pressure : Q;
  wind_speed : Q;
  description : string;
  main : string;
  icon : string;
  clouds : Q;
  rain : Q;
  snow : Q
}.
End Reading.

(** The daily dictionary appended to [forecasts] *)
Module ForecastDay.
Record t : Type := {
  date : Py.date;
  temp_min : Q;
  temp_max : Q;
  temp_avg : Q;
  humidity_avg : Q;
  wind_speed_max : Q;
  total_rain : Q;
  total_snow : Q;
  description : string;
  icon : string;
  details : list Reading.t
}.
End ForecastDay.

(** The [weather_data] dictionary as the engine reads it: the keys read
    with [weather_data[...]] are plain fields, those read with
    [weather_data.get(...)] are optional. *)
Module Weather.
Record t : Type := {
  temperature : Q;
  wind_speed : Q;
  humidity : Z;
  rain_1h : option Q;
  rain_3h : option Q;
  main : option string;
  sunrise : option Py.datetime;
  sunset : option Py.datetime
}.
End Weather.

(** The provider's response for the current weather, with the keys
    [_parse_current_weather] reads: [data['main'][...]], [data['wind']],
    [data['clouds']['all']], [data['weather'][0][...]], [data['dt']],
    [data['sys'][...]], [data['name']], [data['coord'][...]] and the optional
    [visibility], [rain] and [snow]. *)
Module Current.
Record t : Type := {
  temp : Q;
  feels_like : Q;
  temp_min : Q;
  temp_max : Q;
  pressure : Q;
  humidity : Z;
  speed : Q;
  deg : option Q;
  clouds : Q;
  description : string;
  main : string;
  icon : string;
  visibility : option Q;
  rain : option (gmap string Q);
  snow : option (gmap string Q);
  dt : Z;
  sunrise : Z;
  sunset : Z;
  name : string;
  country : string;
  lat : Q;
  lon : Q
}.
End Current.

(** The dictionary returned by [_parse_current_weather] *)
Module CurrentWeather.
Record t : Type := {
  temperature : Q;
  feels_like : Q;
  temp_min : Q;
  temp_max : Q;
  pressure : Q;
  humidity : Z;
  wind_speed : Q;
  wind_direction : Q;
  clouds : Q;
  description : string;
  main : string;
  icon : string;
  visibility : Q;
  rain_1h : Q;
  rain_3h : Q;
  snow_1h : Q;
  timestamp : Py.datetime;
  sunrise : Py.datetime;
  sunset : Py.datetime;
  city : string;
  country : string;
  coordinates : Q * Q
}.

(** The dictionary as the recommendation engine reads it: every key the
    engine looks up is present. *)
Definition read (d : t) : Weather.t := {|
  Weather.temperature := temperature d;
  Weather.wind_speed := wind_speed d;
  Weather.humidity := humidity d;
  Weather.rain_1h := Some (rain_1h d);
  Weather.rain_3h := Some (rain_3h d);
  Weather.main := Some (main d);
  Weather.sunrise := Some (sunrise d);
  Weather.sunset := Some (sunset d)
|}.
End CurrentWeather.

(** The alert dictionaries *)
Module Alert.
Record t : Type := {
  type : string;
  title : string;
  message : string;
  severity : string
}.
End Alert.

(** The dictionary returned by [get_agriculture_recommendations] *)
Module AgricultureBundle.
Record t : Type := {
  alerts : list Alert.t;
  recommendations : list string;
  tasks : list string;
  suitable_activities : list string;
  crop_advice : list string
}.
End AgricultureBundle.

(** The dictionary returned by [get_travel_recommendations] *)
Module TravelBundle.
Record t : Type := {
  alerts : list Alert.t;
  recommendations : list string;
  packing_list : list string;
  travel_outlook : string;
  best_times : list string
}.
End TravelBundle.

(** The dictionary returned by [_analyze_forecast_for_travel] *)
Module ForecastSummary.
Record t : Type := {
  summary : string;
  outlook : string
}.
End ForecastSummary.

(** ** [weather_service.py]: the forecast aggregator *)

Module WeatherService.

Definition date_lt (a b : Py.date) : Prop :=
  a.1.1 < b.1.1 ∨
  (a.1.1 = b.1.1 ∧ (a.1.2 < b.1.2 ∨ (a.1.2 = b.1.2 ∧ a.2 < b.2))).

(** [a <= b] on [datetime.date] values *)
Definition date_le (a b : Py.date) : Prop := date_lt a b ∨ a = b.

(** The order [sorted] uses on the [(date, items)] pairs of
    [daily_data.items()]: the dates decide, since the keys of a
    dictionary are pairwise different. *)
Definition entry_le (a b : Py.date * list Reading.t) : Prop :=
  date_le a.1 b.1.

#[global] Instance date_lt_dec a b : Decision (date_lt a b).
Proof. unfold date_lt. apply _. Defined.
#[global] Instance date_le_dec a b : Decision (date_le a b).
Proof. unfold date_le. apply _. Defined.
#[global] Instance entry_le_dec a b : Decision (entry_le a b).
Proof. unfold entry_le. apply _. Defined.

(** [sorted(...)] *)
Definition sorted (l : list (Py.date * list Reading.t))
  : list (Py.date * list Reading.t) :=
  merge_sort entry_le l.

Section WithLocalTime.

(** [datetime.fromtimestamp]: the conversion to local time of the
    platform *)
Variable fromtimestamp : Z → Py.datetime.

(** The dictionary built from one [item] *)
Definition reading_of (item : Item.t) : Reading.t := {|
  Reading.datetime := fromtimestamp (Item.dt item);
  Reading.temperature := Item.temp item;
  Reading.feels_like := Item.feels_like item;
  Reading.humidity := Item.humidity item;
  Reading.pressure := Item.pressure item;
  Reading.wind_speed := Py.mul (Item.speed item) (Py.rnd (36 # 10));
  Reading.description := Item.description item;
  Reading.main := Item.main item;
  Reading.icon := Item.icon item;
  Reading.clouds := Item.clouds item;
  Reading.rain := default 0%Q (default ∅ (Item.rain item) !! "3h");
  Reading.snow := default 0%Q (default ∅ (Item.snow item) !! "3h")
|}.

(** One round of the grouping loop.  [daily_data[date].append(...)]
    follows the insertion of the key, so the key is present. *)
Definition group_step (daily_data : gmap Py.date (list Reading.t))
    (item : Item.t) : gmap Py.date (list Reading.t) :=
  let dt := fromtimestamp (Item.dt item) in
  let date := Py.datetime_date dt in
  let daily_data :=
    if decide (daily_data !! date = None)
    then <[date := []]> daily_data
    else daily_data in
  alter (λ items, items ++ [reading_of item]) date daily_data.

(** The first loop of [_parse_forecast] *)
Definition group_by_date (l : list Item.t)
  : gmap Py.date (list Reading.t) :=
  foldl group_step ∅ l.

(** The body of the second loop of [_parse_forecast] *)
Definition aggregate (entry : Py.date * list Reading.t)
  : Py.result ForecastDay.t :=
  let '(date, items) := entry in
  let temps := Reading.temperature <$> items in
  temp_min ← Py.min temps;
  temp_max ← Py.max temps;
  temp_avg ← Py.div_len (Py.sum temps) (length temps);
  humidity_avg ←
    Py.div_len (inject_Z (Py.sum_int (Reading.humidity <$> items)))
               (length items);
  wind_speed_max ← Py.max (Reading.wind_speed <$> items);
  let total_rain := Py.sum (Reading.rain <$> items) in
  let total_snow := Py.sum (Reading.snow <$> items) in
  mid_description ← Py.index items (length items / 2)%nat;
  mid_icon ← Py.index items (length items / 2)%nat;
  mret {|
    ForecastDay.date := date;
    ForecastDay.temp_min := temp_min;
    ForecastDay.temp_max := temp_max;
    ForecastDay.temp_avg := temp_avg;
    ForecastDay.humidity_avg := humidity_avg;
    ForecastDay.wind_speed_max := wind_speed_max;
    ForecastDay.total_rain := total_rain;
    ForecastDay.total_snow := total_snow;
    ForecastDay.description := Reading.description mid_description;
    ForecastDay.icon := Reading.icon mid_icon;
    ForecastDay.details := items
  |}.

(** [_parse_forecast(data, days)], with [data['list']] as [l] *)
Definition _parse_forecast (l : list Item.t) (days : Z)
  : Py.result (list ForecastDay.t) :=
  let daily_data := group_by_date l in
  mapM aggregate (Py.slice_to (sorted (map_to_list daily_data)) days).

End WithLocalTime.

(** [datetime.fromtimestamp] for a platform whose local time is UTC:
    the civil date of the day number, then the time of day. *)
Definition utc_fromtimestamp (ts : Z) : Py.datetime :=
  let z := ts / 86400 + 719468 in
  let secs := ts mod 86400 in
  let era := z / 146097 in
  let doe := z - era * 146097 in
  let yoe := (doe - doe / 1460 + doe / 36524 - doe / 146096) / 365 in
  let doy := doe - (365 * yoe + yoe / 4 - yoe / 100) in
  let mp := (5 * doy + 2) / 153 in
  let d := doy - (153 * mp + 2) / 5 + 1 in
  let m := if mp <? 10 then mp + 3 else mp - 9 in
  let y := yoe + era * 400 + (if m <=? 2 then 1 else 0) in
  {| Py.year := y; Py.month := m; Py.day := d;
     Py.hour := secs / 3600; Py.minute := secs mod 3600 / 60;
     Py.second := secs mod 60 |}.

Section CurrentWeather.

(** [datetime.fromtimestamp], as above *)
Variable fromtimestamp : Z → Py.datetime.

(** [_parse_current_weather] *)
Definition _parse_current_weather (data : Current.t) : CurrentWeather.t := {|
  CurrentWeather.temperature := Current.temp data;
  CurrentWeather.feels_like := Current.feels_like data;
  CurrentWeather.temp_min := Current.temp_min data;
  CurrentWeather.temp_max := Current.temp_max data;
  CurrentWeather.pressure := Current.pressure data;
  CurrentWeather.humidity := Current.humidity data;
  CurrentWeather.wind_speed :=
    Py.mul (Current.speed data) (Py.rnd (36 # 10));
  CurrentWeather.wind_direction := default 0%Q (Current.deg data);
  CurrentWeather.clouds := Current.clouds data;
  CurrentWeather.description := Current.description data;
  CurrentWeather.main := Current.main data;
  CurrentWeather.icon := Current.icon data;
  CurrentWeather.visibility :=
    Py.truediv (default 0%Q (Current.visibility data)) 1000;
  CurrentWeather.rain_1h :=
    default 0%Q (default ∅ (Current.rain data) !! "1h");
  CurrentWeather.rain_3h :=
    default 0%Q (default ∅ (Current.rain data) !! "3h");
  CurrentWeather.snow_1h :=
    default 0%Q (default ∅ (Current.snow data) !! "1h");
  CurrentWeather.timestamp := fromtimestamp (Current.dt data);
  CurrentWeather.sunrise := fromtimestamp (Current.sunrise data);
  CurrentWeather.sunset := fromtimestamp (Current.sunset data);
  CurrentWeather.city := Current.name data;
  CurrentWeather.country := Current.country data;
  CurrentWeather.coordinates := (Current.lat data, Current.lon data)
|}.

End CurrentWeather.

End WeatherService.

(** ** [recommendations.py]: the rule evaluators *)

Module RecommendationEngine.

(** The engine object: [__init__] stores the two threshold tables *)
Record t : Type := {
  ag_thresholds : Config.AgricultureThresholds;
  travel_thresholds : Config.TravelThresholds
}.

Definition init : t := {|
  ag_thresholds := Config.AGRICULTURE_THRESHOLDS;
  travel_thresholds := Config.TRAVEL_THRESHOLDS
|}.

(** Truth value of an [Optional[List]]: [None] and [[]] are false *)
Definition truthy {A} (forecast : option (list A)) : bool :=
  match forecast with
  | Some (_ :: _) => true
  | _ => false
  end.

(** The elements a loop over a true [forecast] visits *)
Definition elements {A} (forecast : option (list A)) : list A :=
  default [] forecast.

(** [_get_season], with the month of [datetime.now()] passed in *)
Definition _get_season (month : Z) : string :=
  if bool_decide (month ∈ [12; 1; 2]) then "winter"
  else if bool_decide (month ∈ [3; 4; 5]) then "spring"
  else if bool_decide (month ∈ [6; 7; 8]) then "summer"
  else "autumn".

Definition crop_calendar : gmap string (list string) :=
  list_to_map [
    ("spring", [
      "Good time for planting summer crops like corn, cotton, and vegetables";
      "Prepare soil with organic matter";
      "Monitor for late frost warnings"]);
    ("summer", [
      "Focus on irrigation management";
      "Monitor for heat stress in crops";
      "Good time for harvesting wheat and early crops"]);
    ("autumn", [
      "Plant winter crops like wheat, barley";
      "Harvest summer crops";
      "Prepare fields for winter"]);
    ("winter", [
      "Protect crops from frost";
      "Plan for spring planting";
      "Maintain irrigation systems"])
  ].

(** [_get_crop_advice] *)
Definition _get_crop_advice (season : string) (weather_data : Weather.t)
  : list string :=
  default [] (crop_calendar !! season).

Definition full_activities : list string := [
  "Pesticide/fertilizer application";
  "Harvesting";
  "Field preparation";
  "Planting";
  "Equipment maintenance"].

Definition reduced_activities : list string := [
  "Harvesting (if crops are ready)";
  "Equipment maintenance";
  "Storage management"].

Definition indoor_activities : list string := [
  "Indoor activities only";
  "Planning and paperwork";
  "Equipment cleaning and maintenance"].

(** [_get_suitable_farm_activities] *)
Definition _get_suitable_farm_activities (weather_data : Weather.t)
  : list string :=
  let activities := [] in
  let temp := Weather.temperature weather_data in
  let wind_speed := Weather.wind_speed weather_data in
  let rain := default 0%Q (Weather.rain_1h weather_data) in
  if Py.Qltb rain 1 && Py.Qltb wind_speed 20
     && (Qle_bool 10 temp && Qle_bool temp 30)
  then activities ++ full_activities
  else if Py.Qltb rain 1 && Py.Qltb wind_speed 20
  then activities ++ reduced_activities
  else if Qle_bool 1 rain
  then activities ++ indoor_activities
  else activities.

(** The alerts and texts of [get_agriculture_recommendations] *)
Definition high_wind_alert (wind_speed : Q) : Alert.t := {|
  Alert.type := "warning";
  Alert.title := "⚠️ High Wind Alert";
  Alert.message := "Wind speed is " +:+ Py.fmt1 wind_speed +:+
                   " km/h. Avoid pesticide/fertilizer spraying.";
  Alert.severity := "high"
|}.

Definition frost_alert (temp : Q) : Alert.t := {|
  Alert.type := "danger";
  Alert.title := "❄️ Frost Warning";
  Alert.message := "Temperature is " +:+ Py.fmt1 temp +:+
                   "°C. Protect sensitive crops from frost damage.";
  Alert.severity := "critical"
|}.

Definition heat_stress_alert (temp : Q) : Alert.t := {|
  Alert.type := "warning";
  Alert.title := "🌡️ Heat Stress Alert";
  Alert.message := "High temperature " +:+ Py.fmt1 temp +:+
                   "°C may stress crops. Ensure adequate irrigation.";
  Alert.severity := "high"
|}.

Definition high_humidity_alert (humidity : Z) : Alert.t := {|
  Alert.type := "info";
  Alert.title := "💧 High Humidity Alert";
  Alert.message := "Humidity at " +:+ Py.str_int humidity +:+
                   "%. Increased risk of fungal diseases.";
  Alert.severity := "medium"
|}.

Definition heavy_rain_text (rain : Q) : string :=
  "Heavy rainfall detected (" +:+ Py.fmt1 rain +:+ "mm). Delay irrigation.".

Definition light_rain_text (rain : Q) : string :=
  "Light rainfall (" +:+ Py.fmt1 rain +:+ "mm) expected. Monitor soil moisture.".

Definition upcoming_rain_text (upcoming_rain : Q) : string :=
  "Rain expected in next 3 days (" +:+ Py.fmt1 upcoming_rain +:+
  "mm). Plan irrigation accordingly.".

(** [get_agriculture_recommendations]; [month] is the month of
    [datetime.now()] that [_get_season] reads. *)
Definition get_agriculture_recommendations (self : t) (month : Z)
    (weather_data : Weather.t) (forecast : option (list ForecastDay.t))
  : AgricultureBundle.t :=
  let recommendations : list string := [] in
  let alerts : list Alert.t := [] in
  let tasks : list string := [] in
  let temp := Weather.temperature weather_data in
  let wind_speed := Weather.wind_speed weather_data in
  let humidity := Weather.humidity weather_data in
  let rain := Py.add (default 0%Q (Weather.rain_1h weather_data))
                     (default 0%Q (Weather.rain_3h weather_data)) in
  (* Wind-related recommendations *)
  let '(alerts, tasks) :=
    if Py.Qltb (Config.wind_speed_spray (ag_thresholds self)) wind_speed
    then (alerts ++ [high_wind_alert wind_speed],
          tasks ++ ["Postpone spraying operations until wind subsides"])
    else (alerts,
          tasks ++ ["✓ Good conditions for spraying operations"]) in
  (* Temperature-related recommendations *)
  let '(alerts, tasks) :=
    if Qle_bool temp (Config.frost_temp (ag_thresholds self))
    then (alerts ++ [frost_alert temp],
          tasks ++ ["Cover sensitive crops or use frost protection methods"])
    else if Qle_bool (Config.heat_stress (ag_thresholds self)) temp
    then (alerts ++ [heat_stress_alert temp],
          tasks ++ ["Increase irrigation frequency"])
    else (alerts, tasks) in
  (* Rainfall recommendations *)
  let '(recommendations, tasks) :=
    if Py.Qltb (Config.rain_threshold (ag_thresholds self)) rain
    then (recommendations ++ [heavy_rain_text rain],
          tasks ++ ["Skip irrigation today - sufficient rainfall"])
    else if Py.Qltb 0 rain
    then (recommendations ++ [light_rain_text rain], tasks)
    else
      (* Check forecast for rain *)
      if truthy forecast
      then
        let upcoming_rain :=
          Py.sum (ForecastDay.total_rain <$> take 3 (elements forecast)) in
        if Py.Qltb 5 upcoming_rain
        then (recommendations ++ [upcoming_rain_text upcoming_rain], tasks)
        else (recommendations, tasks ++ ["Regular irrigation recommended"])
      else (recommendations, tasks) in
  (* Humidity recommendations *)
  let '(alerts, recommendations, tasks) :=
    if Qle_bool (Config.high_humidity (ag_thresholds self)) (inject_Z humidity)
    then (alerts ++ [high_humidity_alert humidity],
          recommendations ++ ["Monitor crops for signs of fungal infection"],
          tasks ++ ["Apply preventive fungicide if needed"])
    else (alerts, recommendations, tasks) in
  (* Seasonal crop recommendations *)
  let current_season := _get_season month in
  let crop_advice := _get_crop_advice current_season weather_data in
  let recommendations := recommendations ++ crop_advice in
  {|
    AgricultureBundle.alerts := alerts;
    AgricultureBundle.recommendations := recommendations;
    AgricultureBundle.tasks := tasks;
    AgricultureBundle.suitable_activities :=
      _get_suitable_farm_activities weather_data;
    AgricultureBundle.crop_advice := crop_advice
  |}.

(** The alerts and texts of [get_travel_recommendations] *)
Definition rain_alert : Alert.t := {|
  Alert.type := "warning";
  Alert.title := "☔ Rain Expected";
  Alert.message := "Pack rain gear and plan indoor activities.";
  Alert.severity := "medium"
|}.

Definition wind_alert (wind_speed : Q) : Alert.t := {|
  Alert.type := "warning";
  Alert.title := "💨 Strong Winds";
  Alert.message := "Wind speed " +:+ Py.fmt1 wind_speed +:+
                   " km/h. Be cautious outdoors.";
  Alert.severity := "high"
|}.

Definition storm_alert : Alert.t := {|
  Alert.type := "danger";
  Alert.title := "⛈️ Storm Warning";
  Alert.message := "Severe weather expected. Stay indoors if possible.";
  Alert.severity := "critical"
|}.

Definition fog_alert : Alert.t := {|
  Alert.type := "info";
  Alert.title := "🌫️ Poor Visibility";
  Alert.message := "Fog/mist conditions. Drive carefully.";
  Alert.severity := "medium"
|}.

Definition cold_text (temp : Q) : string :=
  "Cold weather (" +:+ Py.fmt1 temp +:+ "°C). Pack warm clothing.".

Definition hot_text (temp : Q) : string :=
  "Hot weather (" +:+ Py.fmt1 temp +:+
  "°C). Stay hydrated and use sun protection.".

Definition poor_summary : ForecastSummary.t := {|
  ForecastSummary.summary :=
    "Challenging weather ahead. Consider rescheduling outdoor activities.";
  ForecastSummary.outlook := "poor"
|}.

Definition excellent_summary : ForecastSummary.t := {|
  ForecastSummary.summary :=
    "Excellent weather forecast for the next few days!";
  ForecastSummary.outlook := "excellent"
|}.

Definition fair_summary : ForecastSummary.t := {|
  ForecastSummary.summary := "Fair weather expected. Pack accordingly.";
  ForecastSummary.outlook := "fair"
|}.

(** [_analyze_forecast_for_travel] *)
Definition _analyze_forecast_for_travel
    (forecast : option (list ForecastDay.t)) : Py.result ForecastSummary.t :=
  if negb (truthy forecast)
  then mret {| ForecastSummary.summary := "No forecast data available";
               ForecastSummary.outlook := "unknown" |}
  else
    let total_rain := Py.sum (ForecastDay.total_rain <$> elements forecast) in
    avg_temp ← Py.div_len (Py.sum (ForecastDay.temp_avg <$> elements forecast))
                          (length (elements forecast));
    max_wind ← Py.max (ForecastDay.wind_speed_max <$> elements forecast);
    if Py.Qltb 20 total_rain || Py.Qltb 50 max_wind
    then mret poor_summary
    else if Py.Qltb total_rain 5
            && (Qle_bool 15 avg_temp && Qle_bool avg_temp 28)
    then mret excellent_summary
    else mret fair_summary.

(** [_get_best_travel_times] *)
Definition _get_best_travel_times (weather_data : Weather.t)
    (forecast : option (list ForecastDay.t)) : list string :=
  let suggestions : list string := [] in
  let sunrise := Weather.sunrise weather_data in
  let sunset := Weather.sunset weather_data in
  let suggestions :=
    match sunrise with
    | Some sunrise =>
        suggestions ++ ["Sunrise at " +:+ Py.strftime_HM sunrise +:+
                        " - Great for photography"]
    | None => suggestions
    end in
  let suggestions :=
    match sunset with
    | Some sunset =>
        suggestions ++ ["Sunset at " +:+ Py.strftime_HM sunset +:+
                        " - Beautiful evening views"]
    | None => suggestions
    end in
  (* Suggest based on temperature *)
  let temp := Weather.temperature weather_data in
  if Py.Qltb 30 temp
  then suggestions ++
       ["Visit outdoor attractions early morning or late evening to avoid heat"]
  else if Py.Qltb temp 10
  then suggestions ++
       ["Midday (11 AM - 3 PM) will be warmest for outdoor activities"]
  else suggestions.

(** The part of [get_travel_recommendations] before the forecast is
    looked at: the packing, rain, wind and condition rules.  It returns
    the three lists as they stand at the comment
    [# Forecast-based recommendations]. *)
Definition travel_current_rules (self : t) (weather_data : Weather.t)
  : list string * list Alert.t * list string :=
  let recommendations : list string := [] in
  let alerts : list Alert.t := [] in
  let packing_list : list string := [] in
  let temp := Weather.temperature weather_data in
  let wind_speed := Weather.wind_speed weather_data in
  let rain := Py.add (default 0%Q (Weather.rain_1h weather_data))
                     (default 0%Q (Weather.rain_3h weather_data)) in
  let description := Py.lower (default "" (Weather.main weather_data)) in
  (* Temperature-based packing *)
  let '(packing_list, recommendations) :=
    if Qle_bool temp (Config.cold_weather (travel_thresholds self))
    then (packing_list ++ ["Warm jacket"; "Gloves"; "Scarf"; "Thermal wear"],
          recommendations ++ [cold_text temp])
    else if Qle_bool (Config.hot_weather (travel_thresholds self)) temp
    then (packing_list ++ ["Sunscreen"; "Hat"; "Sunglasses";
                           "Light clothing"; "Water bottle"],
          recommendations ++ [hot_text temp])
    else (packing_list ++ ["Light jacket"; "Comfortable clothing"],
          recommendations) in
  (* Rain recommendations *)
  let '(alerts, packing_list, recommendations) :=
    if Py.Qltb (Config.rain_warning (travel_thresholds self)) rain
       || Py.contains "rain" description
    then (alerts ++ [rain_alert],
          packing_list ++ ["Umbrella"; "Raincoat"; "Waterproof bag"],
          recommendations ++ ["Consider indoor attractions or activities"])
    else (alerts, packing_list, recommendations) in
  (* Wind warnings *)
  let '(alerts, recommendations) :=
    if Py.Qltb (Config.wind_warning (travel_thresholds self)) wind_speed
    then (alerts ++ [wind_alert wind_speed],
          recommendations ++ ["Avoid outdoor activities in exposed areas"])
    else (alerts, recommendations) in
  (* Weather condition recommendations *)
  let '(alerts, recommendations) :=
    if Py.contains "clear" description || Py.contains "sun" description
    then (alerts,
          recommendations ++
          ["Perfect weather for sightseeing and outdoor activities!"])
    else if Py.contains "storm" description
            || Py.contains "thunder" description
    then (alerts ++ [storm_alert],
          recommendations ++ ["Postpone outdoor plans. Seek shelter."])
    else if Py.contains "fog" description || Py.contains "mist" description
    then (alerts ++ [fog_alert],
          recommendations ++
          ["Exercise caution while driving. Allow extra travel time."])
    else (alerts, recommendations) in
  (recommendations, alerts, packing_list).

(** [get_travel_recommendations] *)
Definition get_travel_recommendations (self : t) (weather_data : Weather.t)
    (forecast : option (list ForecastDay.t)) : Py.result TravelBundle.t :=
  let '(recommendations, alerts, packing_list) :=
    travel_current_rules self weather_data in
  (* Forecast-based recommendations *)
  let travel_outlook := "good" in
  '(recommendations, travel_outlook) ←
    (if truthy forecast
     then
       forecast_summary ← _analyze_forecast_for_travel forecast;
       mret (recommendations ++ [ForecastSummary.summary forecast_summary],
             ForecastSummary.outlook forecast_summary)
     else mret (recommendations, travel_outlook));
  mret {|
    TravelBundle.alerts := alerts;
    TravelBundle.recommendations := recommendations;
    TravelBundle.packing_list := packing_list;
    TravelBundle.travel_outlook := travel_outlook;
    TravelBundle.best_times := _get_best_travel_times weather_data forecast
  |}.

End RecommendationEngine.

(** ** Vocabulary of the statements *)

Module Spec.

Import RecommendationEngine.

Definition is_frost_alert (a : Alert.t) : Prop := ∃ t, a = frost_alert t.
Definition is_heat_stress_alert (a : Alert.t) : Prop :=
  ∃ t, a = heat_stress_alert t.
Definition is_upcoming_rain_text (s : string) : Prop :=
  ∃ r, s = upcoming_rain_text r.
Definition is_heavy_rain_text (s : string) : Prop :=
  ∃ r, s = heavy_rain_text r.
Definition is_light_rain_text (s : string) : Prop :=
  ∃ r, s = light_rain_text r.

(** [rain] as both evaluators compute it *)
Definition rain (w : Weather.t) : Q :=
  Py.add (default 0%Q (Weather.rain_1h w)) (default 0%Q (Weather.rain_3h w)).

(** [upcoming_rain] as [get_agriculture_recommendations] computes it *)
Definition upcoming_rain (fc : option (list ForecastDay.t)) : Q :=
  Py.sum (ForecastDay.total_rain <$> take 3 (elements fc)).

(** The tests of the rule chain of [get_agriculture_recommendations] *)
Definition windy (self : RecommendationEngine.t) (w : Weather.t) : bool :=
  Py.Qltb (Config.wind_speed_spray (ag_thresholds self))
          (Weather.wind_speed w).

Definition frosty (self : RecommendationEngine.t) (w : Weather.t) : bool :=
  Qle_bool (Weather.temperature w) (Config.frost_temp (ag_thresholds self)).

Definition hot (self : RecommendationEngine.t) (w : Weather.t) : bool :=
  Qle_bool (Config.heat_stress (ag_thresholds self)) (Weather.temperature w).

Definition heavy (self : RecommendationEngine.t) (w : Weather.t) : bool :=
  Py.Qltb (Config.rain_threshold (ag_thresholds self)) (rain w).

Definition light (w : Weather.t) : bool := Py.Qltb 0 (rain w).

Definition wet_ahead (fc : option (list ForecastDay.t)) : bool :=
  Py.Qltb 5 (upcoming_rain fc).

Definition humid (self : RecommendationEngine.t) (w : Weather.t) : bool :=
  Qle_bool (Config.high_humidity (ag_thresholds self))
           (inject_Z (Weather.humidity w)).

(** The advisories of the rain rule are told by how they begin. *)
Definition is_rain_text (s : string) : bool :=
  String.prefix "Heavy rainfall detected (" s
  || String.prefix "Light rainfall (" s
  || String.prefix "Rain expected in next 3 days (" s.

(** The two irrigation tasks of the rain rule *)
Definition is_rain_task (s : string) : bool :=
  bool_decide (s = "Skip irrigation today - sufficient rainfall")
  || bool_decide (s = "Regular irrigation recommended").

(** What the rain rule has put into a bundle: its advisories and its
    tasks, in order *)
Definition rain_rule_output (b : AgricultureBundle.t)
  : list string * list string :=
  (filter is_rain_text (AgricultureBundle.recommendations b),
   filter is_rain_task (AgricultureBundle.tasks b)).

(** The dry branch of the rain rule has left exactly one of its two
    outputs in the bundle: the advisory on the rain ahead, or the
    regular-irrigation task. *)
Definition exactly_one_dry_output (b : AgricultureBundle.t) : Prop :=
  (∃ u, rain_rule_output b = ([upcoming_rain_text u], []))
  ∨ rain_rule_output b = ([], ["Regular irrigation recommended"]).

(** The snapshot of the frost scenario, at -5 degrees *)
Definition frost_snapshot : Weather.t := {|
  Weather.temperature := -5;
  Weather.wind_speed := 5;
  Weather.humidity := 50;
  Weather.rain_1h := Some 0%Q;
  Weather.rain_3h := Some 0%Q;
  Weather.main := Some "Clouds";
  Weather.sunrise := None;
  Weather.sunset := None
|}.

(** A dry, calm and mild snapshot *)
Definition dry_snapshot : Weather.t := {|
  Weather.temperature := 20;
  Weather.wind_speed := 10;
  Weather.humidity := 50;
  Weather.rain_1h := Some 0%Q;
  Weather.rain_3h := Some 0%Q;
  Weather.main := Some "Clouds";
  Weather.sunrise := None;
  Weather.sunset := None
|}.

(** The same snapshot in a wind of 25 km/h *)
Definition windy_snapshot : Weather.t := {|
  Weather.temperature := 20;
  Weather.wind_speed := 25;
  Weather.humidity := 50;
  Weather.rain_1h := Some 0%Q;
  Weather.rain_3h := Some 0%Q;
  Weather.main := Some "Clouds";
  Weather.sunrise := None;
  Weather.sunset := None
|}.

(** [m] is a largest element of [l] *)
Definition is_max (m : Q) (l : list Q) : Prop :=
  m ∈ l ∧ ∀ y, y ∈ l → (y <= m)%Q.

(** [m] is a smallest element of [l] *)
Definition is_min (m : Q) (l : list Q) : Prop :=
  m ∈ l ∧ ∀ y, y ∈ l → (m <= y)%Q.

(** The arithmetic mean of a list of floats as Python computes it,
    [sum(l) / len(l)]: the sum rounds each addition and the division
    rounds once more. *)
Definition mean (l : list Q) : Q :=
  Py.truediv (Py.sum l) (inject_Z (Z.of_nat (length l))).

(** The arithmetic mean of a list of integers, [sum(l) / len(l)]: the sum
    is exact and the division rounds to the nearest float. *)
Definition mean_int (l : list Z) : Q :=
  Py.truediv (inject_Z (Py.sum_int l)) (inject_Z (Z.of_nat (length l))).

(** The texts [_analyze_forecast_for_travel] can return as a summary *)
Definition forecast_summaries : list string := [
  "No forecast data available";
  "Challenging weather ahead. Consider rescheduling outdoor activities.";
  "Excellent weather forecast for the next few days!";
  "Fair weather expected. Pack accordingly."].

(** The statistics of a forecast that the travel outlook is made of *)
Definition forecast_total_rain (fc : list ForecastDay.t) : Q :=
  Py.sum (ForecastDay.total_rain <$> fc).

Definition forecast_avg_temp (fc : list ForecastDay.t) : Q :=
  mean (ForecastDay.temp_avg <$> fc).

(** The snapshot of the storm scenario: wind of 60 km/h, 20 degrees, no
    rain, and a condition category to choose *)
Definition storm_snapshot (category : string) (humidity : Z)
    (sunrise sunset : option Py.datetime) : Weather.t := {|
  Weather.temperature := 20;
  Weather.wind_speed := 60;
  Weather.humidity := humidity;
  Weather.rain_1h := Some 0%Q;
  Weather.rain_3h := Some 0%Q;
  Weather.main := Some category;
  Weather.sunrise := sunrise;
  Weather.sunset := sunset
|}.

(** A forecast day with the three readings the travel outlook uses *)
Definition day_of (rain temp wind : Q) : ForecastDay.t := {|
  ForecastDay.date := (2026, 1, 1);
  ForecastDay.temp_min := temp;
  ForecastDay.temp_max := temp;
  ForecastDay.temp_avg := temp;
  ForecastDay.humidity_avg := 60;
  ForecastDay.wind_speed_max := wind;
  ForecastDay.total_rain := rain;
  ForecastDay.total_snow := 0;
  ForecastDay.description := "scattered clouds";
  ForecastDay.icon := "03d";
  ForecastDay.details := []
|}.

Section Aggregation.

Variable fromtimestamp : Z → Py.datetime.

(** The calendar date of an item *)
Definition date_of (item : Item.t) : Py.date :=
  Py.datetime_date (fromtimestamp (Item.dt item)).

(** The readings of one calendar date, in the order of the input *)
Definition readings_on (date : Py.date) (l : list Item.t)
  : list Reading.t :=
  WeatherService.reading_of fromtimestamp <$>
    filter (λ item, date_of item = date) l.

(** The dates present in the input, each once *)
Definition distinct_dates (l : list Item.t) : list Py.date :=
  remove_dups (date_of <$> l).

End Aggregation.

(** The daily entry [fd] is the summary of the readings [rs]. *)
Definition summarises (rs : list Reading.t) (fd : ForecastDay.t) : Prop :=
  let temps := Reading.temperature <$> rs in
  ForecastDay.details fd = rs
  ∧ is_min (ForecastDay.temp_min fd) temps
  ∧ is_max (ForecastDay.temp_max fd) temps
  ∧ ForecastDay.temp_avg fd = mean temps
  ∧ ForecastDay.humidity_avg fd = mean_int (Reading.humidity <$> rs)
  ∧ is_max (ForecastDay.wind_speed_max fd) (Reading.wind_speed <$> rs)
  ∧ ForecastDay.total_rain fd = Py.sum (Reading.rain <$> rs)
  ∧ ForecastDay.total_snow fd = Py.sum (Reading.snow <$> rs)
  ∧ ∃ mid, rs !! (length rs / 2)%nat = Some mid
           ∧ ForecastDay.description fd = Reading.description mid
           ∧ ForecastDay.icon fd = Reading.icon mid.

(** The dates of a list of daily entries *)
Definition dates_of (fds : list ForecastDay.t) : list Py.date :=
  ForecastDay.date <$> fds.

(** An item of the provider's response, at a time, with a temperature and
    a description *)
Definition item_at (ts : Z) (temp : Q) (description : string) : Item.t := {|
  Item.dt := ts;
  Item.temp := temp;
  Item.feels_like := temp;
  Item.humidity := 50;
  Item.pressure := 1013;
  Item.speed := 2;
  Item.description := description;
  Item.main := "Clouds";
  Item.icon := "03d";
  Item.clouds := 40;
  Item.rain := Some {["3h" := 1 # 2]}%Q;
  Item.snow := None
|}.

(** Eight three-hourly readings: four on 1 January 1970 and four on the
    day after, the later day first *)
Definition two_days : list Item.t := [
  item_at 86400 3 "e"; item_at 97200 4 "f";
  item_at 108000 6 "g"; item_at 118800 5 "h";
  item_at 0 1 "a"; item_at 10800 2 "b";
  item_at 21600 4 "c"; item_at 32400 3 "d"].

(** One reading on each of five days, not in the order of the dates *)
Definition five_days : list Item.t := [
  item_at 259200 4 "d4"; item_at 0 1 "d1"; item_at 345600 5 "d5";
  item_at 86400 2 "d2"; item_at 172800 3 "d3"].

End Spec.

(** ** More vocabulary of the statements *)

Module SpecMore.

Import RecommendationEngine Spec.

Definition is_high_wind_alert (a : Alert.t) : Prop :=
  ∃ x, a = high_wind_alert x.
Definition is_humidity_alert (a : Alert.t) : Prop :=
  ∃ h, a = high_humidity_alert h.
Definition is_wind_alert (a : Alert.t) : Prop := ∃ x, a = wind_alert x.

(** [description] as [get_travel_recommendations] computes it *)
Definition condition (w : Weather.t) : string :=
  Py.lower (default "" (Weather.main w)).

(** The test of the rain rule of [get_travel_recommendations] *)
Definition wet (self : RecommendationEngine.t) (w : Weather.t) : bool :=
  Py.Qltb (Config.rain_warning (travel_thresholds self)) (rain w)
  || Py.contains "rain" (condition w).

(** The tests of the packing rule *)
Definition cold (self : RecommendationEngine.t) (w : Weather.t) : bool :=
  Qle_bool (Weather.temperature w)
           (Config.cold_weather (travel_thresholds self)).

Definition warm (self : RecommendationEngine.t) (w : Weather.t) : bool :=
  Qle_bool (Config.hot_weather (travel_thresholds self))
           (Weather.temperature w).

(** The tests of the wind rule and of the condition rule *)
Definition gusty (self : RecommendationEngine.t) (w : Weather.t) : bool :=
  Py.Qltb (Config.wind_warning (travel_thresholds self))
          (Weather.wind_speed w).

Definition sunny (w : Weather.t) : bool :=
  Py.contains "clear" (condition w) || Py.contains "sun" (condition w).

Definition stormy (w : Weather.t) : bool :=
  Py.contains "storm" (condition w) || Py.contains "thunder" (condition w).

Definition foggy (w : Weather.t) : bool :=
  Py.contains "fog" (condition w) || Py.contains "mist" (condition w).

(** The snapshot [w] with another condition category *)
Definition with_main (w : Weather.t) (category : option string)
  : Weather.t := {|
  Weather.temperature := Weather.temperature w;
  Weather.wind_speed := Weather.wind_speed w;
  Weather.humidity := Weather.humidity w;
  Weather.rain_1h := Weather.rain_1h w;
  Weather.rain_3h := Weather.rain_3h w;
  Weather.main := category;
  Weather.sunrise := Weather.sunrise w;
  Weather.sunset := Weather.sunset w
|}.

(** A response of the provider for the current weather, without rain *)
Definition clear_response : Current.t := {|
  Current.temp := 21;
  Current.feels_like := 20;
  Current.temp_min := 18;
  Current.temp_max := 23;
  Current.pressure := 1015;
  Current.humidity := 40;
  Current.speed := 3;
  Current.deg := Some 180%Q;
  Current.clouds := 0;
  Current.description := "clear sky";
  Current.main := "Clear";
  Current.icon := "01d";
  Current.visibility := Some 10000%Q;
  Current.rain := None;
  Current.snow := None;
  Current.dt := 43200;
  Current.sunrise := 21600;
  Current.sunset := 64800;
  Current.name := "Pune";
  Current.country := "IN";
  Current.lat := 18;
  Current.lon := 73
|}.

(** A mild and calm snapshot with the two amounts of rain to choose *)
Definition rain_snapshot (rain_1h rain_3h : Q) : Weather.t := {|
  Weather.temperature := 20;
  Weather.wind_speed := 10;
  Weather.humidity := 50;
  Weather.rain_1h := Some rain_1h;
  Weather.rain_3h := Some rain_3h;
  Weather.main := Some "Clouds";
  Weather.sunrise := None;
  Weather.sunset := None
|}.

(** An item of the provider's response with a temperature and a humidity
    to choose *)
Definition item_with (temp : Q) (humidity : Z) : Item.t := {|
  Item.dt := 0;
  Item.temp := temp;
  Item.feels_like := temp;
  Item.humidity := humidity;
  Item.pressure := 1013;
  Item.speed := 2;
  Item.description := "scattered clouds";
  Item.main := "Clouds";
  Item.icon := "03d";
  Item.clouds := 40;
  Item.rain := None;
  Item.snow := None
|}.

End SpecMore.

(** * Properties *)

(** ** Comparisons on rationals *)

Section Comparisons.

Implicit Types a b : Q.

Lemma Qltb_iff a b : Py.Qltb a b = true ↔ (a < b)%Q.
Proof.
  unfold Py.Qltb. rewrite negb_true_iff. split.
  - intros H. apply Qnot_le_lt. intros Hle.
    apply Qle_bool_iff in Hle. congruence.
  - intros H. destruct (Qle_bool b a) eqn:E; [|done].
    apply Qle_bool_iff in E. exfalso. by apply (Qlt_not_le a b).
Qed.

Lemma Qltb_false_iff a b : Py.Qltb a b = false ↔ (b <= a)%Q.
Proof. unfold Py.Qltb. rewrite negb_false_iff. apply Qle_bool_iff. Qed.

Lemma Qle_bool_false_iff a b : Qle_bool a b = false ↔ (b < a)%Q.
Proof. rewrite <- Qltb_iff. unfold Py.Qltb. by rewrite negb_true_iff. Qed.

Lemma Qle_bool_not_iff a b : Qle_bool a b = false ↔ ¬ (a <= b)%Q.
Proof.
  rewrite <- Qle_bool_iff. destruct (Qle_bool a b); split; congruence.
Qed.

Lemma Qltb_not_iff a b : Py.Qltb a b = false ↔ ¬ (a < b)%Q.
Proof.
  rewrite <- Qltb_iff. destruct (Py.Qltb a b); split; congruence.
Qed.

End Comparisons.

(** Turn the order facts among the hypotheses into the boolean tests of the
    source. *)
Ltac to_tests :=
  repeat match goal with
  | H : (_ < _)%Q |- _ => apply Qltb_iff in H
  | H : (_ <= _)%Q |- _ => apply Qle_bool_iff in H
  | H : ¬ (_ < _)%Q |- _ => apply Qltb_not_iff in H
  | H : ¬ (_ <= _)%Q |- _ => apply Qle_bool_not_iff in H
  end.

(** Follow every branch of the rule chain in the goal. *)
Ltac branches :=
  repeat match goal with
  | H : ?c = _ |- context [if ?c then _ else _] => rewrite H
  | |- context [if ?c then _ else _] => destruct c eqn:?
  end.

(** Settle the tests of the goal that the hypotheses decide. *)
Ltac settle_tests :=
  repeat match goal with
  | H : ?c = true |- context [?c] => rewrite H
  | H : ?c = false |- context [?c] => rewrite H
  end;
  cbn [andb orb negb].

(** Forget what the texts in the goal say; what is left is the shape of the
    lists. *)
Ltac forget_texts :=
  repeat match goal with
  | |- context [String ?c ?r] =>
      let v := fresh "text" in set (v := String c r) in *; clearbody v
  end.

(** Membership and non-membership in a list that is written out. *)
Ltac in_list :=
  rewrite ?elem_of_app, ?elem_of_cons, ?elem_of_nil; tauto.

Ltac not_in_list :=
  let H := fresh in
  rewrite ?elem_of_app, ?elem_of_cons, ?elem_of_nil;
  intros H; decompose [or] H; try discriminate; done.

(** ** Texts *)

Lemma prefix_append (p x : string) : String.prefix p (p +:+ x) = true.
Proof.
  induction p as [|c p IH].
  - by destruct x.
  - change (String.prefix (String c p) (String c (p +:+ x)) = true).
    cbn. destruct (ascii_dec c c); [done|congruence].
Qed.

Lemma filter_one_true {A} (P : A → Prop) `{∀ x, Decision (P x)} (x : A) :
  P x → filter P [x] = [x].
Proof. intros. by rewrite filter_cons_True. Qed.

Lemma filter_one_false {A} (P : A → Prop) `{∀ x, Decision (P x)} (x : A) :
  ¬ P x → filter P [x] = [].
Proof. intros. by rewrite filter_cons_False. Qed.

(** ** The agriculture evaluator *)

Section Agriculture.

Import RecommendationEngine Spec.

Variable self : RecommendationEngine.t.
Variable month : Z.
Variable w : Weather.t.
Variable fc : option (list ForecastDay.t).

(** The seasonal advice is one of the four entries of the calendar. *)
Lemma crop_advice_cases :
  _get_crop_advice (_get_season month) w ∈
    (λ s, default [] (crop_calendar !! s)) <$>
      ["winter"; "spring"; "summer"; "autumn"].
Proof.
  unfold _get_season, _get_crop_advice.
  repeat case_bool_decide; cbn [fmap list_fmap]; in_list.
Qed.

(** Which alerts the bundle holds *)
Lemma ag_alerts_spec a :
  a ∈ AgricultureBundle.alerts (get_agriculture_recommendations self month w fc) ↔
    (a = high_wind_alert (Weather.wind_speed w) ∧ windy self w = true)
    ∨ (a = frost_alert (Weather.temperature w) ∧ frosty self w = true)
    ∨ (a = heat_stress_alert (Weather.temperature w)
       ∧ frosty self w = false ∧ hot self w = true)
    ∨ (a = high_humidity_alert (Weather.humidity w) ∧ humid self w = true).
Proof.
  unfold windy, frosty, hot, heavy, light, wet_ahead, humid.
  unfold get_agriculture_recommendations.
  generalize high_wind_alert, frost_alert, heat_stress_alert,
    high_humidity_alert; intros.
  branches; cbn [AgricultureBundle.alerts app];
    rewrite ?elem_of_cons, elem_of_nil; intuition congruence.
Qed.

(** Which tasks the bundle holds *)
Lemma ag_tasks_spec s :
  s ∈ AgricultureBundle.tasks (get_agriculture_recommendations self month w fc) ↔
    (s = "Postpone spraying operations until wind subsides" ∧ windy self w = true)
    ∨ (s = "✓ Good conditions for spraying operations" ∧ windy self w = false)
    ∨ (s = "Cover sensitive crops or use frost protection methods"
       ∧ frosty self w = true)
    ∨ (s = "Increase irrigation frequency" ∧ frosty self w = false ∧ hot self w = true)
    ∨ (s = "Skip irrigation today - sufficient rainfall" ∧ heavy self w = true)
    ∨ (s = "Regular irrigation recommended" ∧ heavy self w = false ∧ light w = false
       ∧ truthy fc = true ∧ wet_ahead fc = false)
    ∨ (s = "Apply preventive fungicide if needed" ∧ humid self w = true).
Proof.
  unfold windy, frosty, hot, heavy, light, wet_ahead, humid.
  unfold rain, upcoming_rain, get_agriculture_recommendations.
  forget_texts.
  branches; cbn [AgricultureBundle.tasks app];
    rewrite ?elem_of_cons, elem_of_nil; intuition congruence.
Qed.

(** Which advisories the bundle holds *)
Lemma ag_recommendations_spec s :
  s ∈ AgricultureBundle.recommendations (get_agriculture_recommendations self month w fc) ↔
    (s = heavy_rain_text (rain w) ∧ heavy self w = true)
    ∨ (s = light_rain_text (rain w) ∧ heavy self w = false ∧ light w = true)
    ∨ (s = upcoming_rain_text (upcoming_rain fc) ∧ heavy self w = false
       ∧ light w = false ∧ truthy fc = true ∧ wet_ahead fc = true)
    ∨ (s = "Monitor crops for signs of fungal infection" ∧ humid self w = true)
    ∨ s ∈ _get_crop_advice (_get_season month) w.
Proof.
  unfold windy, frosty, hot, heavy, light, wet_ahead, humid.
  unfold rain, upcoming_rain, get_agriculture_recommendations.
  forget_texts.
  branches; cbn [AgricultureBundle.recommendations app];
    rewrite ?elem_of_app, ?elem_of_cons, ?elem_of_nil; intuition congruence.
Qed.

(** No seasonal advice is taken for an advisory of the rain rule. *)
Lemma crop_advice_no_rain_text :
  filter is_rain_text (_get_crop_advice (_get_season month) w) = [].
Proof.
  pose proof crop_advice_cases as Hc.
  cbn [fmap list_fmap] in Hc.
  rewrite !elem_of_cons, elem_of_nil in Hc.
  destruct Hc as [Hc|[Hc|[Hc|[Hc|[]]]]]; rewrite Hc; by vm_compute.
Qed.

(** The wind rule writes the first task. *)
Lemma ag_tasks_head :
  ∃ rest, AgricultureBundle.tasks (get_agriculture_recommendations self month w fc) =
    (if windy self w then "Postpone spraying operations until wind subsides"
     else "✓ Good conditions for spraying operations") :: rest.
Proof.
  unfold windy, get_agriculture_recommendations.
  branches; cbn [AgricultureBundle.tasks app]; eauto.
Qed.

End Agriculture.

Section AgricultureRain.

Import RecommendationEngine Spec.

Lemma heavy_is_rain_text r :
  filter is_rain_text [heavy_rain_text r] = [heavy_rain_text r].
Proof.
  apply filter_one_true. unfold is_rain_text, heavy_rain_text.
  by rewrite prefix_append.
Qed.

Lemma light_is_rain_text r :
  filter is_rain_text [light_rain_text r] = [light_rain_text r].
Proof.
  apply filter_one_true. unfold is_rain_text, light_rain_text.
  by rewrite prefix_append, orb_true_r.
Qed.

Lemma upcoming_is_rain_text r :
  filter is_rain_text [upcoming_rain_text r] = [upcoming_rain_text r].
Proof.
  apply filter_one_true. unfold is_rain_text, upcoming_rain_text.
  by rewrite prefix_append, orb_true_r.
Qed.

(** The rain rule, branch by branch: what it leaves in the bundle. *)
Lemma rain_rule_branches self month w fc :
  rain_rule_output (get_agriculture_recommendations self month w fc) =
    if Py.Qltb (Config.rain_threshold (ag_thresholds self)) (rain w)
    then ([heavy_rain_text (rain w)],
          ["Skip irrigation today - sufficient rainfall"])
    else if Py.Qltb 0 (rain w)
    then ([light_rain_text (rain w)], [])
    else if truthy fc
    then if Py.Qltb 5 (upcoming_rain fc)
         then ([upcoming_rain_text (upcoming_rain fc)], [])
         else ([], ["Regular irrigation recommended"])
    else ([], []).
Proof.
  unfold rain_rule_output, rain, upcoming_rain,
    get_agriculture_recommendations.
  branches;
    cbn [AgricultureBundle.recommendations AgricultureBundle.tasks];
    rewrite !filter_app, ?crop_advice_no_rain_text, ?heavy_is_rain_text,
      ?light_is_rain_text, ?upcoming_is_rain_text;
    reflexivity.
Qed.

End AgricultureRain.

(** ** Claims on the agriculture evaluator *)

Section AgricultureClaims.

Import RecommendationEngine Spec.

(** C1. The temperature rule of the agriculture evaluator is mutually
    exclusive.  For every snapshot: when [temperature <= frost_temp] the
    bundle holds the frost alert (kind danger, severity critical) and the
    frost-protection task, and no heat-stress alert; otherwise, when
    [temperature >= heat_stress], it holds the heat-stress alert (kind
    warning, severity high) and the increase-irrigation task, and no
    frost alert.  With the default thresholds a snapshot at -5 degrees
    gets the frost alert and no heat-stress alert. *)
Theorem C1_temperature_rule_exclusive :
  (∀ self month w fc,
     let b := get_agriculture_recommendations self month w fc in
     let temp := Weather.temperature w in
     let th := ag_thresholds self in
     ((temp <= Config.frost_temp th)%Q →
        (∃ a, a ∈ AgricultureBundle.alerts b ∧ a = frost_alert temp
              ∧ Alert.type a = "danger" ∧ Alert.severity a = "critical")
        ∧ ("Cover sensitive crops or use frost protection methods"
             ∈ AgricultureBundle.tasks b)
        ∧ (∀ a, a ∈ AgricultureBundle.alerts b → ¬ is_heat_stress_alert a))
     ∧ (¬ (temp <= Config.frost_temp th)%Q →
        (Config.heat_stress th <= temp)%Q →
        (∃ a, a ∈ AgricultureBundle.alerts b ∧ a = heat_stress_alert temp
              ∧ Alert.type a = "warning" ∧ Alert.severity a = "high")
        ∧ ("Increase irrigation frequency" ∈ AgricultureBundle.tasks b)
        ∧ (∀ a, a ∈ AgricultureBundle.alerts b → ¬ is_frost_alert a)))
  ∧ (∀ month w fc,
       (Weather.temperature w == -5)%Q →
       let b := get_agriculture_recommendations init month w fc in
       frost_alert (Weather.temperature w) ∈ AgricultureBundle.alerts b
       ∧ (∀ a, a ∈ AgricultureBundle.alerts b → ¬ is_heat_stress_alert a)).
Proof.
  assert (Hgen : ∀ self month w fc,
    Qle_bool (Weather.temperature w)
             (Config.frost_temp (ag_thresholds self)) = true →
    let b := get_agriculture_recommendations self month w fc in
    frost_alert (Weather.temperature w) ∈ AgricultureBundle.alerts b
    ∧ ("Cover sensitive crops or use frost protection methods"
         ∈ AgricultureBundle.tasks b)
    ∧ (∀ a, a ∈ AgricultureBundle.alerts b → ¬ is_heat_stress_alert a)).
  { intros self month w fc Hf b. split; [|split].
    - apply ag_alerts_spec. auto 10.
    - apply ag_tasks_spec. auto 10.
    - intros a Ha [t Ht]. apply ag_alerts_spec in Ha.
      destruct Ha as [[-> _]|[[-> _]|[[_ [Hn _]]|[-> _]]]];
        try discriminate Ht.
      unfold frosty in Hn. congruence. }
  split.
  - intros self month w fc b temp th. split.
    + intros Hf. apply Qle_bool_iff in Hf.
      destruct (Hgen self month w fc Hf) as (Ha & Ht & Hn).
      split; [|done]. exists (frost_alert temp). done.
    + intros Hf Hh. apply Qle_bool_not_iff in Hf. apply Qle_bool_iff in Hh.
      split; [|split].
      * exists (heat_stress_alert temp). split; [|done].
        apply ag_alerts_spec. auto 10.
      * apply ag_tasks_spec. auto 10.
      * intros a Ha [t Ht]. apply ag_alerts_spec in Ha.
        destruct Ha as [[-> _]|[[_ Hn]|[[-> _]|[-> _]]]];
          try discriminate Ht.
        subst temp th. unfold frosty in Hn. congruence.
  - intros month w fc Ht b.
    assert (Hf : Qle_bool (Weather.temperature w)
                   (Config.frost_temp (ag_thresholds init)) = true).
    { apply Qle_bool_iff. rewrite Ht. done. }
    destruct (Hgen init month w fc Hf) as (Ha & _ & Hn). done.
Qed.

Lemma C1_witness :
  let b := get_agriculture_recommendations init 1 frost_snapshot None in
  ((Weather.temperature frost_snapshot
      <= Config.frost_temp (ag_thresholds init))%Q
   ∧ (Weather.temperature frost_snapshot == -5)%Q)
  ∧ frost_alert (-5) ∈ AgricultureBundle.alerts b
  ∧ ("Cover sensitive crops or use frost protection methods"
       ∈ AgricultureBundle.tasks b)
  ∧ (∀ a, a ∈ AgricultureBundle.alerts b → ¬ is_heat_stress_alert a).
Proof.
  intros b.
  assert (H1 : (Weather.temperature frost_snapshot
                  <= Config.frost_temp (ag_thresholds init))%Q) by done.
  assert (H2 : (Weather.temperature frost_snapshot == -5)%Q) by done.
  split; [done|].
  destruct C1_temperature_rule_exclusive as [Hall Hdef].
  destruct (Hall init 1 frost_snapshot None) as [Hfrost _].
  destruct (Hfrost H1) as (_ & Htask & _).
  destruct (Hdef 1 frost_snapshot None H2) as [Hin Hno].
  done.
Defined.




(** C3. The suitable activities are chosen by an if / else-if chain in
    which the first match wins: a dry hour ([rain_1h < 1]) with wind below
    20 and a temperature from 10 to 30 gives the full set of five
    activities; else a dry hour with wind below 20 gives the reduced set of
    three; else [rain_1h >= 1] gives the indoor set of three; else (a dry
    hour with wind of 20 or more) gives no activity.  So [rain_1h = 0],
    [wind_speed = 25], [temperature = 20] gives the empty list and
    [rain_1h = 0], [wind_speed = 10], [temperature = 20] the full set. *)
Theorem C3_suitable_activities_first_match :
  (∀ w,
     let rain_1h := default 0%Q (Weather.rain_1h w) in
     let wind := Weather.wind_speed w in
     let temp := Weather.temperature w in
     let activities := _get_suitable_farm_activities w in
     ((rain_1h < 1)%Q → (wind < 20)%Q → (10 <= temp)%Q → (temp <= 30)%Q →
        activities = full_activities)
     ∧ ((rain_1h < 1)%Q → (wind < 20)%Q → ¬ ((10 <= temp)%Q ∧ (temp <= 30)%Q) →
        activities = reduced_activities)
     ∧ ((1 <= rain_1h)%Q → activities = indoor_activities)
     ∧ ((rain_1h < 1)%Q → (20 <= wind)%Q → activities = []))
  ∧ (length full_activities = 5%nat ∧ length reduced_activities = 3%nat
     ∧ length indoor_activities = 3%nat)
  ∧ _get_suitable_farm_activities windy_snapshot = []
  ∧ _get_suitable_farm_activities dry_snapshot = full_activities.
Proof.
  split; [|by vm_compute].
  intros w rain_1h wind temp activities.
  subst activities rain_1h wind temp. unfold _get_suitable_farm_activities.
  repeat split; intros; to_tests.
  - by settle_tests.
  - assert (Hb : Qle_bool 10 (Weather.temperature w)
                 && Qle_bool (Weather.temperature w) 30 = false).
    { apply not_true_is_false. intros [??]%andb_true_iff.
      rewrite !Qle_bool_iff in *. tauto. }
    by settle_tests.
  - assert (Hn : Py.Qltb (default 0%Q (Weather.rain_1h w)) 1 = false)
      by by apply Qltb_false_iff, Qle_bool_iff.
    by settle_tests.
  - assert (Hn : Py.Qltb (Weather.wind_speed w) 20 = false)
      by by apply Qltb_false_iff, Qle_bool_iff.
    assert (Hr : Qle_bool 1 (default 0%Q (Weather.rain_1h w)) = false)
      by by apply Qle_bool_false_iff, Qltb_iff.
    by settle_tests.
Qed.

Lemma C3_witness :
  _get_suitable_farm_activities dry_snapshot = full_activities
  ∧ _get_suitable_farm_activities windy_snapshot = [].
Proof.
  destruct C3_suitable_activities_first_match as [Hall _].
  split.
  - apply (Hall dry_snapshot); by vm_compute.
  - apply (Hall windy_snapshot); by vm_compute.
Defined.

(** C10. The task list of the agriculture bundle is never empty: the wind
    rule writes a task on either side, the postpone-spraying task when
    [wind_speed > wind_speed_spray] and the good-conditions task
    otherwise. *)
Theorem C10_tasks_never_empty self month w fc :
  let b := get_agriculture_recommendations self month w fc in
  let wind := Weather.wind_speed w in
  let limit := Config.wind_speed_spray (ag_thresholds self) in
  AgricultureBundle.tasks b ≠ []
  ∧ ((limit < wind)%Q →
     "Postpone spraying operations until wind subsides"
       ∈ AgricultureBundle.tasks b)
  ∧ (¬ (limit < wind)%Q →
     "✓ Good conditions for spraying operations"
       ∈ AgricultureBundle.tasks b).
Proof.
  intros b wind limit. subst b wind limit.
  destruct (ag_tasks_head self month w fc) as [rest Hrest].
  unfold windy in Hrest. rewrite Hrest. repeat split; intros; to_tests; branches;
    try done; try congruence; apply list_elem_of_here.
Qed.

Lemma C10_witness :
  let b := get_agriculture_recommendations init 1 windy_snapshot None in
  AgricultureBundle.tasks b ≠ []
  ∧ "Postpone spraying operations until wind subsides"
      ∈ AgricultureBundle.tasks b.
Proof.
  intros b.
  destruct (C10_tasks_never_empty init 1 windy_snapshot None)
    as (Hne & Hwind & _).
  split; [exact Hne|]. apply Hwind. by vm_compute.
Defined.

End AgricultureClaims.

(** ** [min] and [max] *)

Section Extrema.

Implicit Types (l : list Q) (m x : Q).

Lemma fold_max_spec l x :
  let m := fold_left (λ m y, if Py.Qltb m y then y else m) l x in
  m ∈ x :: l ∧ ∀ y, y ∈ x :: l → (y <= m)%Q.
Proof.
  revert x. induction l as [|z l IH]; intros x; cbn.
  - split; [apply list_elem_of_here|].
    intros y ->%list_elem_of_singleton. apply Qle_refl.
  - destruct (IH (if Py.Qltb x z then z else x)) as [Hin Hle].
    split.
    + apply elem_of_cons in Hin as [->|Hin].
      * destruct (Py.Qltb x z); in_list.
      * in_list.
    + intros y Hy.
      assert (Hstep : (x <= (if Py.Qltb x z then z else x))%Q
                      ∧ (z <= (if Py.Qltb x z then z else x))%Q).
      { destruct (Py.Qltb x z) eqn:E.
        - apply Qltb_iff in E. split; [by apply Qlt_le_weak|apply Qle_refl].
        - apply Qltb_false_iff in E. split; [apply Qle_refl|done]. }
      rewrite !elem_of_cons in Hy. destruct Hy as [->|[->|Hy]].
      * eapply Qle_trans; [apply Hstep|]. apply Hle, list_elem_of_here.
      * eapply Qle_trans; [apply Hstep|]. apply Hle, list_elem_of_here.
      * apply Hle. in_list.
Qed.

Lemma fold_min_spec l x :
  let m := fold_left (λ m y, if Py.Qltb y m then y else m) l x in
  m ∈ x :: l ∧ ∀ y, y ∈ x :: l → (m <= y)%Q.
Proof.
  revert x. induction l as [|z l IH]; intros x; cbn.
  - split; [apply list_elem_of_here|].
    intros y ->%list_elem_of_singleton. apply Qle_refl.
  - destruct (IH (if Py.Qltb z x then z else x)) as [Hin Hle].
    split.
    + apply elem_of_cons in Hin as [->|Hin].
      * destruct (Py.Qltb z x); in_list.
      * in_list.
    + intros y Hy.
      assert (Hstep : ((if Py.Qltb z x then z else x) <= x)%Q
                      ∧ ((if Py.Qltb z x then z else x) <= z)%Q).
      { destruct (Py.Qltb z x) eqn:E.
        - apply Qltb_iff in E. split; [by apply Qlt_le_weak|apply Qle_refl].
        - apply Qltb_false_iff in E. split; [apply Qle_refl|done]. }
      rewrite !elem_of_cons in Hy. destruct Hy as [->|[->|Hy]].
      * eapply Qle_trans; [|apply Hstep]. apply Hle, list_elem_of_here.
      * eapply Qle_trans; [|apply Hstep]. apply Hle, list_elem_of_here.
      * apply Hle. in_list.
Qed.

(** [max] returns on every sequence that is not empty, and what it
    returns is a largest element. *)
Lemma max_spec l :
  l ≠ [] → ∃ m, Py.max l = Py.Ok m ∧ Spec.is_max m l.
Proof.
  destruct l as [|x l]; [done|]. intros _. eexists. split; [done|].
  apply fold_max_spec.
Qed.

Lemma min_spec l :
  l ≠ [] → ∃ m, Py.min l = Py.Ok m ∧ Spec.is_min m l.
Proof.
  destruct l as [|x l]; [done|]. intros _. eexists. split; [done|].
  apply fold_min_spec.
Qed.

Lemma max_raises_iff l : Py.max l = Py.Raise Py.ValueError ↔ l = [].
Proof. by destruct l. Qed.

Lemma div_len_spec a n :
  n ≠ 0%nat →
  Py.div_len a n = Py.Ok (Py.truediv a (inject_Z (Z.of_nat n))).
Proof. by destruct n. Qed.

End Extrema.

(** ** The travel evaluator *)

Section Travel.

Import RecommendationEngine Spec.

Variable self : RecommendationEngine.t.
Variable w : Weather.t.

(** On a forecast that is true the analysis returns, and it returns one
    of the three classified summaries, chosen on the statistics. *)
Lemma analyze_truthy fc :
  fc ≠ [] →
  ∃ max_wind,
    Py.max (ForecastDay.wind_speed_max <$> fc) = Py.Ok max_wind
    ∧ is_max max_wind (ForecastDay.wind_speed_max <$> fc)
    ∧ _analyze_forecast_for_travel (Some fc) =
        Py.Ok (if Py.Qltb 20 (forecast_total_rain fc) || Py.Qltb 50 max_wind
               then poor_summary
               else if Py.Qltb (forecast_total_rain fc) 5
                       && (Qle_bool 15 (forecast_avg_temp fc)
                           && Qle_bool (forecast_avg_temp fc) 28)
               then excellent_summary
               else fair_summary).
Proof.
  intros Hne.
  destruct (max_spec (ForecastDay.wind_speed_max <$> fc))
    as (m & Hm & Hmax); [by destruct fc|].
  exists m. split; [done|]. split; [done|].
  unfold _analyze_forecast_for_travel.
  destruct fc as [|d ds]; [done|].
  cbn [truthy negb elements default from_option id].
  rewrite Hm, div_len_spec by done.
  unfold forecast_total_rain, forecast_avg_temp, mean.
  rewrite length_fmap. cbn [mbind result_bind Py.bind mret result_ret].
  by repeat case_match.
Qed.

(** On a forecast that is false the analysis answers "unknown". *)
Lemma analyze_falsy fc :
  truthy fc = false →
  _analyze_forecast_for_travel fc =
    Py.Ok {| ForecastSummary.summary := "No forecast data available";
             ForecastSummary.outlook := "unknown" |}.
Proof. unfold _analyze_forecast_for_travel. by intros ->. Qed.

(** Without a forecast the evaluator returns what the rules on the
    current conditions have collected, and the outlook "good". *)
Lemma travel_without_forecast fc :
  truthy fc = false →
  get_travel_recommendations self w fc =
    Py.Ok {|
      TravelBundle.alerts := (travel_current_rules self w).1.2;
      TravelBundle.recommendations := (travel_current_rules self w).1.1;
      TravelBundle.packing_list := (travel_current_rules self w).2;
      TravelBundle.travel_outlook := "good";
      TravelBundle.best_times := _get_best_travel_times w fc
    |}.
Proof.
  intros Hf. unfold get_travel_recommendations.
  destruct (travel_current_rules self w) as [[recs alerts] packing].
  by rewrite Hf.
Qed.

(** With a forecast the summary of the analysis is appended and its
    outlook is taken. *)
Lemma travel_with_forecast fc :
  fc ≠ [] →
  ∃ s, _analyze_forecast_for_travel (Some fc) = Py.Ok s
    ∧ get_travel_recommendations self w (Some fc) =
      Py.Ok {|
        TravelBundle.alerts := (travel_current_rules self w).1.2;
        TravelBundle.recommendations :=
          (travel_current_rules self w).1.1 ++ [ForecastSummary.summary s];
        TravelBundle.packing_list := (travel_current_rules self w).2;
        TravelBundle.travel_outlook := ForecastSummary.outlook s;
        TravelBundle.best_times := _get_best_travel_times w (Some fc)
      |}.
Proof.
  intros Hne. destruct (analyze_truthy fc Hne) as (m & _ & _ & Hs).
  eexists. split; [exact Hs|].
  unfold get_travel_recommendations.
  destruct (travel_current_rules self w) as [[recs alerts] packing].
  rewrite Hs. by destruct fc.
Qed.

(** The suggested times do not depend on the forecast. *)
Lemma best_times_forecast fc fc' :
  _get_best_travel_times w fc = _get_best_travel_times w fc'.
Proof. done. Qed.

(** The advisories of the rules on the current conditions *)
Lemma travel_rules_recommendations s :
  s ∈ (travel_current_rules self w).1.1 →
  s = cold_text (Weather.temperature w)
  ∨ s = hot_text (Weather.temperature w)
  ∨ s ∈ ["Consider indoor attractions or activities";
         "Avoid outdoor activities in exposed areas";
         "Perfect weather for sightseeing and outdoor activities!";
         "Postpone outdoor plans. Seek shelter.";
         "Exercise caution while driving. Allow extra travel time."].
Proof.
  unfold travel_current_rules.
  generalize cold_text, hot_text. intros. revert H.
  forget_texts.
  branches; cbn [fst snd app];
    rewrite ?elem_of_app, ?elem_of_cons, ?elem_of_nil; tauto.
Qed.

(** No advisory of the rules on the current conditions reads like a
    forecast summary. *)
Lemma travel_rules_no_summary s :
  s ∈ (travel_current_rules self w).1.1 → s ∉ forecast_summaries.
Proof.
  intros Hs%travel_rules_recommendations.
  unfold forecast_summaries.
  rewrite ?elem_of_cons, ?elem_of_nil in Hs.
  decompose [or] Hs; try done; subst s; not_in_list.
Qed.

End Travel.

Section TravelResult.

Import RecommendationEngine Spec.

(** The analysis of a forecast that is true gives one of the three
    classified summaries. *)
Lemma analyze_truthy_cases fc :
  fc ≠ [] →
  ∃ s, _analyze_forecast_for_travel (Some fc) = Py.Ok s
       ∧ s ∈ [poor_summary; excellent_summary; fair_summary].
Proof.
  intros Hne. destruct (analyze_truthy fc Hne) as (m & _ & _ & Hs).
  eexists. split; [exact Hs|]. repeat case_match; in_list.
Qed.

(** The evaluator returns on every input.  What it returns is what the
    rules on the current conditions have collected, with the outlook
    "good" when the forecast is false, and with the summary and the
    outlook of the analysis when it is true. *)
Lemma travel_result_cases self w fc :
  ∃ extra outlook,
    get_travel_recommendations self w fc =
      Py.Ok {|
        TravelBundle.alerts := (travel_current_rules self w).1.2;
        TravelBundle.recommendations :=
          (travel_current_rules self w).1.1 ++ extra;
        TravelBundle.packing_list := (travel_current_rules self w).2;
        TravelBundle.travel_outlook := outlook;
        TravelBundle.best_times := _get_best_travel_times w None
      |}
    ∧ ((truthy fc = false ∧ extra = [] ∧ outlook = "good")
       ∨ (truthy fc = true
          ∧ ∃ s, s ∈ [poor_summary; excellent_summary; fair_summary]
                 ∧ extra = [ForecastSummary.summary s]
                 ∧ outlook = ForecastSummary.outlook s)).
Proof.
  destruct (truthy fc) eqn:Hf.
  - destruct fc as [[|d ds]|]; try done.
    destruct (travel_with_forecast self w (d :: ds)) as (s & Hs & Hb);
      [done|].
    destruct (analyze_truthy_cases (d :: ds)) as (s' & Hs' & Hin); [done|].
    rewrite Hs in Hs'. injection Hs' as <-.
    exists [ForecastSummary.summary s], (ForecastSummary.outlook s).
    split; [by rewrite Hb|]. right. split; [done|]. by exists s.
  - exists [], "good". rewrite app_nil_r. split; [|by left].
    by rewrite travel_without_forecast.
Qed.

(** The rules on the current conditions in the storm scenario *)
Lemma storm_rules category humidity sunrise sunset :
  category ∈ ["Storm"; "storm"; "Thunderstorm"] →
  travel_current_rules init (storm_snapshot category humidity sunrise sunset)
  = (["Avoid outdoor activities in exposed areas";
      "Postpone outdoor plans. Seek shelter."],
     [wind_alert 60; storm_alert],
     ["Light jacket"; "Comfortable clothing"]).
Proof.
  rewrite !elem_of_cons, elem_of_nil.
  intros [->|[->|[->|[]]]]; reflexivity.
Qed.

End TravelResult.

(** ** Claims on the travel evaluator *)

Section TravelClaims.

Import RecommendationEngine Spec.



(** C5. Travel evaluation without a forecast ([None] or an empty list)
    does not raise: it returns a bundle whose outlook is "good" and whose
    advisories hold no forecast summary; the alerts, the advisories, the
    packing list and the suggested times are those of the rules on the
    current conditions, the same as under any other forecast, which only
    appends its summary. *)
Theorem C5_travel_without_forecast self w fc :
  fc = None ∨ fc = Some [] →
  ∃ b,
    get_travel_recommendations self w fc = Py.Ok b
    ∧ TravelBundle.travel_outlook b = "good"
    ∧ (∀ s, s ∈ TravelBundle.recommendations b → s ∉ forecast_summaries)
    ∧ (TravelBundle.recommendations b, TravelBundle.alerts b,
       TravelBundle.packing_list b) = travel_current_rules self w
    ∧ (∀ fc' b',
         get_travel_recommendations self w fc' = Py.Ok b' →
         TravelBundle.alerts b' = TravelBundle.alerts b
         ∧ TravelBundle.packing_list b' = TravelBundle.packing_list b
         ∧ TravelBundle.best_times b' = TravelBundle.best_times b
         ∧ (TravelBundle.recommendations b' = TravelBundle.recommendations b
            ∨ ∃ s, s ∈ forecast_summaries
                   ∧ TravelBundle.recommendations b'
                     = TravelBundle.recommendations b ++ [s])).
Proof.
  intros Hfc.
  assert (Hf : truthy fc = false) by (by destruct Hfc as [->| ->]).
  eexists. split; [by apply travel_without_forecast|].
  cbn [TravelBundle.travel_outlook TravelBundle.recommendations
       TravelBundle.alerts TravelBundle.packing_list
       TravelBundle.best_times].
  split; [done|]. split; [apply travel_rules_no_summary|].
  split; [by destruct (travel_current_rules self w) as [[??]?]|].
  intros fc' b' Hb'.
  destruct (travel_result_cases self w fc') as (extra & outlook & Hr & Hc).
  rewrite Hr in Hb'. injection Hb' as <-.
  cbn [TravelBundle.travel_outlook TravelBundle.recommendations
       TravelBundle.alerts TravelBundle.packing_list
       TravelBundle.best_times].
  repeat split; try done.
  destruct Hc as [(_ & -> & _)|(_ & s & Hs & -> & _)].
  - left. apply app_nil_r.
  - right. eexists. split; [|done].
    rewrite !elem_of_cons, elem_of_nil in Hs.
    destruct Hs as [->|[->|[->|[]]]]; unfold forecast_summaries; in_list.
Qed.

Lemma C5_witness :
  ∃ b, get_travel_recommendations init dry_snapshot (Some []) = Py.Ok b
       ∧ TravelBundle.travel_outlook b = "good"
       ∧ TravelBundle.packing_list b
         = ["Light jacket"; "Comfortable clothing"].
Proof.
  destruct (C5_travel_without_forecast init dry_snapshot (Some []))
    as (b & Hb & Hout & _ & Hrules & _); [by right|].
  exists b. split; [exact Hb|]. split; [exact Hout|].
  by injection Hrules as _ _ ->.
Defined.

(** C8. The alert rules of the travel evaluator are independent.  A
    snapshot with wind of 60 km/h, a storm condition, 20 degrees and no
    rain gets, under the default thresholds, exactly two alerts: the wind
    warning of severity high and the storm danger alert of severity
    critical, each with its advisory, and no rain or fog alert. *)
Theorem C8_wind_and_storm_alerts category humidity sunrise sunset fc :
  category ∈ ["Storm"; "storm"; "Thunderstorm"] →
  ∃ b,
    get_travel_recommendations init
      (storm_snapshot category humidity sunrise sunset) fc = Py.Ok b
    ∧ TravelBundle.alerts b = [wind_alert 60; storm_alert]
    ∧ (Alert.type (wind_alert 60) = "warning"
       ∧ Alert.severity (wind_alert 60) = "high"
       ∧ Alert.type storm_alert = "danger"
       ∧ Alert.severity storm_alert = "critical")
    ∧ ((rain_alert ∉ TravelBundle.alerts b)
       ∧ (fog_alert ∉ TravelBundle.alerts b))
    ∧ (∃ rest,
         TravelBundle.recommendations b =
           ["Avoid outdoor activities in exposed areas";
            "Postpone outdoor plans. Seek shelter."] ++ rest
         ∧ (rest = [] ∨ ∃ s, s ∈ forecast_summaries ∧ rest = [s])).
Proof.
  intros Hc.
  destruct (travel_result_cases init
              (storm_snapshot category humidity sunrise sunset) fc)
    as (extra & outlook & Hr & Hcases).
  rewrite (storm_rules _ _ _ _ Hc) in Hr. cbn [fst snd] in Hr.
  eexists. split; [exact Hr|].
  cbn [TravelBundle.alerts TravelBundle.recommendations].
  split; [done|]. split; [done|].
  split; [split; not_in_list|].
  exists extra. split; [done|].
  destruct Hcases as [(_ & -> & _)|(_ & s & Hs & -> & _)]; [by left|].
  right. eexists. split; [|done].
  rewrite !elem_of_cons, elem_of_nil in Hs.
  destruct Hs as [->|[->|[->|[]]]]; unfold forecast_summaries; in_list.
Qed.

Lemma C8_witness :
  ∃ b, get_travel_recommendations init
         (storm_snapshot "Thunderstorm" 50 None None) None = Py.Ok b
       ∧ TravelBundle.alerts b = [wind_alert 60; storm_alert].
Proof.
  destruct (C8_wind_and_storm_alerts "Thunderstorm" 50 None None None)
    as (b & Hb & Ha & _); [in_list|].
  by exists b.
Defined.

(** C9. On every input the travel evaluator returns, and the outlook it
    returns is one of "good", "poor", "excellent" and "fair".  The
    analysis of the forecast answers "unknown" only on a forecast that is
    false, and on such a forecast the evaluator does not consult it: the
    outlook is "good". *)
Theorem C9_travel_outlook_values self w fc :
  ∃ b,
    get_travel_recommendations self w fc = Py.Ok b
    ∧ TravelBundle.travel_outlook b ∈ ["good"; "poor"; "excellent"; "fair"]
    ∧ TravelBundle.travel_outlook b ≠ "unknown"
    ∧ (∀ s, _analyze_forecast_for_travel fc = Py.Ok s →
            (ForecastSummary.outlook s = "unknown" ↔ truthy fc = false))
    ∧ (truthy fc = false → TravelBundle.travel_outlook b = "good").
Proof.
  destruct (travel_result_cases self w fc) as (extra & outlook & Hr & Hc).
  eexists. split; [exact Hr|]. cbn [TravelBundle.travel_outlook].
  assert (Hout : outlook ∈ ["good"; "poor"; "excellent"; "fair"]).
  { destruct Hc as [(_ & _ & ->)|(_ & s & Hs & _ & ->)]; [in_list|].
    rewrite !elem_of_cons, elem_of_nil in Hs.
    destruct Hs as [->|[->|[->|[]]]]; cbn; in_list. }
  split; [exact Hout|]. split; [|split].
  - intros ->. revert Hout. not_in_list.
  - intros s Hs. destruct (truthy fc) eqn:Hf.
    + destruct fc as [[|d ds]|]; try done.
      destruct (analyze_truthy_cases (d :: ds)) as (s' & Hs' & Hin);
        [done|].
      rewrite Hs in Hs'. injection Hs' as <-.
      rewrite !elem_of_cons, elem_of_nil in Hin.
      destruct Hin as [->|[->|[->|[]]]]; split; done.
    + rewrite analyze_falsy in Hs by done. by injection Hs as <-.
  - intros Hf. destruct Hc as [(_ & _ & ->)|(Ht & _)]; [done|congruence].
Qed.

End TravelClaims.

(** ** The order on dates *)

Section DateOrder.

Import WeatherService.

#[global] Instance date_le_total : Total date_le.
Proof.
  intros [[y1 m1] d1] [[y2 m2] d2]. unfold date_le, date_lt. cbn.
  destruct (decide (y1 = y2)) as [->|]; [|lia].
  destruct (decide (m1 = m2)) as [->|]; [|lia].
  destruct (decide (d1 = d2)) as [->|]; [|lia].
  left. by right.
Qed.

#[global] Instance date_lt_trans : Transitive date_lt.
Proof.
  intros [[y1 m1] d1] [[y2 m2] d2] [[y3 m3] d3]. unfold date_lt. cbn. lia.
Qed.

#[global] Instance date_le_trans : Transitive date_le.
Proof.
  intros a b c [Hab| ->] [Hbc| ->]; unfold date_le; eauto.
  left. by transitivity b.
Qed.

Lemma date_lt_irrefl a : ¬ date_lt a a.
Proof. destruct a as [[y m] d]. unfold date_lt. cbn. lia. Qed.

#[global] Instance date_le_antisymm : AntiSymm (=) date_le.
Proof.
  intros a b [Hab| ->] [Hba|Heq]; try done.
  destruct (date_lt_irrefl a). by transitivity b.
Qed.

#[global] Instance entry_le_total : Total entry_le.
Proof. intros a b. apply date_le_total. Qed.

#[global] Instance entry_le_trans : Transitive entry_le.
Proof. intros a b c. apply date_le_trans. Qed.

(** A list of dates in ascending order without repetition ascends
    strictly. *)
Lemma ascending_strictly (l : list Py.date) :
  StronglySorted date_le l → NoDup l → StronglySorted date_lt l.
Proof.
  induction 1 as [|a l Hl IH Ha]; intros Hnd; constructor.
  - apply IH. by apply NoDup_cons in Hnd as [_ ?].
  - apply NoDup_cons in Hnd as [Hnotin _].
    rewrite Forall_forall in Ha |- *. intros b Hb.
    destruct (Ha b Hb) as [?| ->]; done.
Qed.

End DateOrder.

(** ** The forecast aggregator *)

Section Aggregator.

Import WeatherService Spec.

Variable fromtimestamp : Z → Py.datetime.

(** One round of the grouping loop appends the reading to the list of its
    date and leaves the other dates alone. *)
Lemma group_step_lookup (m : gmap Py.date (list Reading.t)) item d :
  group_step fromtimestamp m item !! d =
    if decide (d = date_of fromtimestamp item)
    then Some (default [] (m !! d) ++ [reading_of fromtimestamp item])
    else m !! d.
Proof.
  unfold group_step. fold (date_of fromtimestamp item).
  destruct (decide (d = date_of fromtimestamp item)) as [->|Hne].
  - rewrite lookup_alter_eq.
    destruct (decide (m !! date_of fromtimestamp item = None)) as [Hnone|Hsome].
    + by rewrite lookup_insert_eq, Hnone.
    + by destruct (m !! date_of fromtimestamp item).
  - rewrite lookup_alter_ne by done.
    destruct (decide (m !! date_of fromtimestamp item = None)); [|done].
    by rewrite lookup_insert_ne.
Qed.

(** After the grouping loop a date is a key when it has readings, and its
    value is its readings in the order of the input. *)
Lemma group_by_date_lookup l d :
  group_by_date fromtimestamp l !! d =
    if decide (readings_on fromtimestamp d l = []) then None
    else Some (readings_on fromtimestamp d l).
Proof.
  unfold WeatherService.group_by_date.
  induction l as [|item l IH] using rev_ind; [done|].
  rewrite foldl_snoc, group_step_lookup, IH.
  unfold Spec.readings_on. rewrite filter_app, fmap_app.
  destruct (decide (d = date_of fromtimestamp item)) as [->|Hne].
  - rewrite filter_one_true by done.
    set (rs := reading_of fromtimestamp <$> filter _ l).
    rewrite (decide_False (P := rs ++ _ = []))
      by (by intros [_ ?]%app_eq_nil).
    by destruct (decide (rs = [])) as [->|].
  - rewrite filter_one_false by done. by rewrite app_nil_r.
Qed.

Lemma readings_on_nil d l :
  readings_on fromtimestamp d l = [] ↔ d ∉ date_of fromtimestamp <$> l.
Proof.
  unfold Spec.readings_on. rewrite list_elem_of_fmap. split.
  - intros Hnil%fmap_nil_inv (item & -> & Hin).
    by apply (filter_nil_not_elem_of _ _ item Hnil).
  - intros Hno.
    destruct (filter _ l) as [|item rest] eqn:Hf; [done|].
    assert (Hin : item ∈ filter (λ i, date_of fromtimestamp i = d) l)
      by (rewrite Hf; apply list_elem_of_here).
    apply list_elem_of_filter in Hin as [<- Hin].
    destruct Hno. by exists item.
Qed.

(** The keys of the grouping are the dates of the input. *)
Lemma group_by_date_entry l d rs :
  (d, rs) ∈ map_to_list (group_by_date fromtimestamp l) ↔
    d ∈ date_of fromtimestamp <$> l ∧ rs = readings_on fromtimestamp d l.
Proof.
  rewrite elem_of_map_to_list, group_by_date_lookup.
  pose proof (readings_on_nil d l) as Hnil.
  case_decide as Hn.
  - split; [done|]. intros [Hd _]. by apply Hnil in Hn.
  - split.
    + intros [= <-]. split; [|done].
      destruct (decide (d ∈ date_of fromtimestamp <$> l)) as [|Hno]; [done|].
      destruct Hn. by apply Hnil.
    + by intros [_ ->].
Qed.

(** The entries that the second loop visits before the truncation:
    ascending in their dates, one for each date of the input. *)
Lemma sorted_entries l :
  let entries := sorted (map_to_list (group_by_date fromtimestamp l)) in
  StronglySorted date_lt entries.*1
  ∧ (∀ d rs, (d, rs) ∈ entries ↔
             d ∈ date_of fromtimestamp <$> l ∧ rs = readings_on fromtimestamp d l)
  ∧ length entries = length (distinct_dates fromtimestamp l).
Proof.
  intros entries.
  assert (Hperm : entries ≡ₚ map_to_list (group_by_date fromtimestamp l))
    by apply merge_sort_Permutation.
  assert (Hnd : NoDup entries.*1).
  { rewrite Hperm. apply NoDup_fst_map_to_list. }
  split; [|split].
  - apply ascending_strictly; [|done].
    apply (StronglySorted_fmap fst entry_le); [done|].
    apply Sorted_StronglySorted; [apply _|].
    apply Sorted_merge_sort; apply _.
  - intros d rs. rewrite Hperm. apply group_by_date_entry.
  - rewrite <- (length_fmap fst). apply Permutation_length.
    apply NoDup_Permutation; [done|apply NoDup_remove_dups|].
    intros d. unfold distinct_dates. rewrite elem_of_remove_dups.
    rewrite Hperm. split.
    + intros ([d' rs] & -> & Hin)%list_elem_of_fmap.
      by apply group_by_date_entry in Hin as [? _].
    + intros Hd. apply list_elem_of_fmap.
      exists (d, readings_on fromtimestamp d l). split; [done|].
      by apply group_by_date_entry.
Qed.

(** The body of the second loop returns on every group that is not
    empty, and what it returns summarises the group. *)
Lemma aggregate_spec d rs :
  rs ≠ [] →
  ∃ fd, aggregate (d, rs) = Py.Ok fd
        ∧ ForecastDay.date fd = d ∧ summarises rs fd.
Proof.
  intros Hne. unfold aggregate.
  destruct (min_spec (Reading.temperature <$> rs)) as (tmin & -> & Hmin);
    [by destruct rs|].
  destruct (max_spec (Reading.temperature <$> rs)) as (tmax & -> & Hmax);
    [by destruct rs|].
  destruct (max_spec (Reading.wind_speed <$> rs)) as (wmax & -> & Hwmax);
    [by destruct rs|].
  assert (Hlen : length rs ≠ 0%nat) by by destruct rs.
  rewrite length_fmap, !div_len_spec by done.
  assert (Hmid : is_Some (rs !! (length rs / 2)%nat)).
  { apply lookup_lt_is_Some. apply Nat.div_lt; lia. }
  destruct Hmid as [mid Hmid]. unfold Py.index. rewrite Hmid.
  eexists. split; [reflexivity|]. split; [done|].
  unfold summarises, mean, mean_int.
  cbn [ForecastDay.details ForecastDay.temp_min ForecastDay.temp_max
       ForecastDay.temp_avg ForecastDay.humidity_avg
       ForecastDay.wind_speed_max ForecastDay.total_rain
       ForecastDay.total_snow ForecastDay.description ForecastDay.icon].
  rewrite !length_fmap.
  split_and!; try done. by exists mid.
Qed.

Lemma aggregate_all es :
  Forall (λ e, e.2 ≠ []) es →
  ∃ fds, mapM aggregate es = Py.Ok fds
         ∧ Forall2 (λ e fd, ForecastDay.date fd = e.1 ∧ summarises e.2 fd)
             es fds.
Proof.
  induction 1 as [|[d rs] es Hne _ (fds & IH & Hall)].
  - by exists [].
  - destruct (aggregate_spec d rs Hne) as (fd & Hfd & Hd & Hs).
    exists (fd :: fds). cbn [mapM]. rewrite Hfd, IH.
    split; [done|]. by constructor.
Qed.

Lemma elem_of_take_full {A} (xs : list A) k x : x ∈ take k xs → x ∈ xs.
Proof.
  intros (i & Hi & _)%elem_of_take. by eapply list_elem_of_lookup_2.
Qed.

(** [xs[:n]] keeps a front part of [xs]. *)
Lemma slice_to_take {A} (xs : list A) n :
  ∃ k, Py.slice_to xs n = take k xs ∧ (0 <= n → k = Z.to_nat n).
Proof.
  unfold Py.slice_to. destruct (Z.leb_spec 0 n).
  - by exists (Z.to_nat n).
  - eexists. split; [done|]. lia.
Qed.

(** The aggregator returns on every input: the summaries of a front part
    of the entries in ascending order of date. *)
Lemma parse_forecast_spec l days :
  let entries := sorted (map_to_list (group_by_date fromtimestamp l)) in
  ∃ fds k,
    _parse_forecast fromtimestamp l days = Py.Ok fds
    ∧ Forall2 (λ e fd, ForecastDay.date fd = e.1 ∧ summarises e.2 fd)
        (take k entries) fds
    ∧ (0 <= days → k = Z.to_nat days).
Proof.
  intros entries. unfold _parse_forecast. fold entries.
  destruct (slice_to_take entries days) as (k & -> & Hk).
  destruct (aggregate_all (take k entries)) as (fds & Hfds & Hall).
  { apply Forall_forall. intros [d rs] Hin Hnil.
    apply elem_of_take_full in Hin.
    apply (proj1 (proj2 (sorted_entries l))) in Hin as [Hd ->].
    by apply readings_on_nil in Hnil. }
  by exists fds, k.
Qed.

Lemma summaries_dates (es : list (Py.date * list Reading.t)) fds :
  Forall2 (λ e fd, ForecastDay.date fd = e.1 ∧ summarises e.2 fd) es fds →
  dates_of fds = es.*1.
Proof.
  unfold dates_of. induction 1 as [|e fd es fds [Hd _] _ IH]; [done|].
  cbn. by rewrite Hd, IH.
Qed.

Lemma summaries_of_readings l (es : list (Py.date * list Reading.t)) fds :
  Forall2 (λ e fd, ForecastDay.date fd = e.1 ∧ summarises e.2 fd) es fds →
  Forall (λ e, e.1 ∈ date_of fromtimestamp <$> l
               ∧ e.2 = readings_on fromtimestamp e.1 l) es →
  Forall (λ fd, ForecastDay.date fd ∈ date_of fromtimestamp <$> l
                ∧ summarises (readings_on fromtimestamp (ForecastDay.date fd) l) fd) fds.
Proof.
  induction 1 as [|e fd es fds [Hd Hs] _ IH]; [done|].
  intros [[He1 He2] Hes]%Forall_cons. constructor; [|by apply IH].
  rewrite Hd. by rewrite <- He2.
Qed.

(** The dates of the result are a front part of the ascending dates. *)
Lemma parse_forecast_dates l days :
  let entries := sorted (map_to_list (group_by_date fromtimestamp l)) in
  ∃ fds k,
    _parse_forecast fromtimestamp l days = Py.Ok fds
    ∧ dates_of fds = take k entries.*1
    ∧ Forall (λ fd, ForecastDay.date fd ∈ date_of fromtimestamp <$> l
                    ∧ summarises (readings_on fromtimestamp (ForecastDay.date fd) l) fd)
        fds
    ∧ (0 <= days → k = Z.to_nat days).
Proof.
  intros entries.
  destruct (parse_forecast_spec l days) as (fds & k & Hp & Hall & Hk).
  fold entries in Hall.
  exists fds, k. split; [done|]. split; [|split; [|done]].
  - rewrite <- fmap_take. by apply summaries_dates.
  - apply (summaries_of_readings l _ _ Hall).
    apply Forall_forall. intros [d rs] He%elem_of_take_full.
    by apply (proj1 (proj2 (sorted_entries l))) in He.
Qed.

Lemma ascending_take (ds : list Py.date) k :
  StronglySorted date_lt ds → StronglySorted date_lt (take k ds).
Proof.
  rewrite <- (take_drop k ds) at 1. apply StronglySorted_app_1_l.
Qed.

Lemma ascending_NoDup (ds : list Py.date) :
  StronglySorted date_lt ds → NoDup ds.
Proof.
  induction 1 as [|d ds _ IH Hd]; constructor; [|done].
  intros Hin. rewrite Forall_forall in Hd.
  by apply (date_lt_irrefl d), Hd.
Qed.

(** A date left out by the truncation is later than every date kept. *)
Lemma ascending_take_earliest (ds : list Py.date) k d d' :
  StronglySorted date_lt ds →
  d ∈ ds → d ∉ take k ds → d' ∈ take k ds → date_lt d' d.
Proof.
  rewrite <- (take_drop k ds) at 1 2. intros Hs Hd Hno Hd'.
  apply elem_of_app in Hd as [Hd|Hd]; [done|].
  by apply (StronglySorted_app_1_elem_of _ _ _ _ _ Hs).
Qed.

(** The ascending dates of the entries *)
Lemma entry_dates l :
  let ds := (sorted (map_to_list (group_by_date fromtimestamp l))).*1 in
  StronglySorted date_lt ds
  ∧ (∀ d, d ∈ ds ↔ d ∈ date_of fromtimestamp <$> l)
  ∧ length ds = length (distinct_dates fromtimestamp l).
Proof.
  intros ds. destruct (sorted_entries l) as (Hs & He & Hl).
  split; [done|]. split.
  - intros d. unfold ds. rewrite list_elem_of_fmap. split.
    + intros ([d' rs] & -> & Hin). by apply He in Hin as [? _].
    + intros Hd. exists (d, readings_on fromtimestamp d l). split; [done|].
      by apply He.
  - unfold ds. by rewrite length_fmap.
Qed.

(** The ascending dates depend on which dates the input holds, not on
    where in the input they stand. *)
Lemma entry_dates_permutation l l' :
  l' ≡ₚ l →
  (sorted (map_to_list (group_by_date fromtimestamp l'))).*1
  = (sorted (map_to_list (group_by_date fromtimestamp l))).*1.
Proof.
  intros Hperm.
  destruct (entry_dates l) as (Hs & He & _).
  destruct (entry_dates l') as (Hs' & He' & _).
  apply (StronglySorted_unique_strong date_lt); [|done|done|].
  - intros a b _ _ Hab Hba. destruct (date_lt_irrefl a).
    by transitivity b.
  - apply NoDup_Permutation; [by apply ascending_NoDup..|].
    intros d. by rewrite He, He', Hperm.
Qed.




End Aggregator.

(** ** Claims on the forecast aggregator *)

Section AggregatorClaims.

Import WeatherService Spec.




(** C7 (as amended).  For a requested day count [days >= 0] the result of
    the aggregator ascends strictly in its dates, whatever the order of
    the input; it holds the earliest dates of the input, and its length is
    the smaller of [days] and the number of distinct dates of the input.
    Requesting 3 days of data that spans 5 dates returns the 3 earliest
    dates. *)
Theorem C7_sorted_then_truncated fromtimestamp l days :
  0 <= days →
  ∃ fds,
    _parse_forecast fromtimestamp l days = Py.Ok fds
    ∧ StronglySorted date_lt (dates_of fds)
    ∧ (∀ d, d ∈ dates_of fds → d ∈ date_of fromtimestamp <$> l)
    ∧ (∀ d d', d ∈ date_of fromtimestamp <$> l → d ∉ dates_of fds →
               d' ∈ dates_of fds → date_lt d' d)
    ∧ length fds
      = Nat.min (Z.to_nat days) (length (distinct_dates fromtimestamp l))
    ∧ (Z.of_nat (length fds) <= days
       ∧ (length fds ≤ length (distinct_dates fromtimestamp l))%nat)
    ∧ (∀ l', l' ≡ₚ l →
             ∃ fds', _parse_forecast fromtimestamp l' days = Py.Ok fds'
                     ∧ dates_of fds' = dates_of fds)
    ∧ (days = 3 → length (distinct_dates fromtimestamp l) = 5%nat →
       length fds = 3%nat).
Proof.
  intros Hdays.
  destruct (parse_forecast_dates fromtimestamp l days)
    as (fds & k & Hp & Hdates & _ & Hk).
  destruct (entry_dates fromtimestamp l) as (Hsorted & Hmem & Hlen).
  rewrite (Hk Hdays) in Hdates. clear k Hk.
  assert (Hlength : length fds
            = Nat.min (Z.to_nat days)
                (length (distinct_dates fromtimestamp l))).
  { rewrite <- (length_fmap ForecastDay.date). fold (dates_of fds).
    by rewrite Hdates, length_take, Hlen. }
  exists fds. split; [done|]. split_and!.
  - rewrite Hdates. by apply ascending_take.
  - intros d. rewrite Hdates. intros Hd%elem_of_take_full. by apply Hmem.
  - intros d d' Hd. rewrite Hdates. apply ascending_take_earliest; [done|].
    by apply Hmem.
  - done.
  - lia.
  - lia.
  - intros l' Hperm.
    destruct (parse_forecast_dates fromtimestamp l' days)
      as (fds' & k' & Hp' & Hdates' & _ & Hk').
    exists fds'. split; [done|].
    by rewrite Hdates', Hdates, (Hk' Hdays), (entry_dates_permutation _ _ _ Hperm).
  - intros -> H5. rewrite Hlength, H5. done.
Qed.

Lemma C7_witness :
  ∃ fds,
    _parse_forecast utc_fromtimestamp five_days 3 = Py.Ok fds
    ∧ length fds = 3%nat
    ∧ dates_of fds = [(1970, 1, 1); (1970, 1, 2); (1970, 1, 3)].
Proof.
  destruct (C7_sorted_then_truncated utc_fromtimestamp five_days 3)
    as (fds & Hp & _ & _ & _ & _ & _ & _ & Hthree); [done|].
  exists fds. split; [exact Hp|]. split; [by apply Hthree|].
  vm_compute in Hp. injection Hp as <-. by vm_compute.
Defined.

(** C7, the claim as it was stated, fails for a negative day count: the
    slice [[:days]] then drops days from the end, and the result is
    longer than [days].  Two dates requested with [days = -1] give one
    entry. *)
Lemma C7_counterexample :
  ∃ fds,
    _parse_forecast utc_fromtimestamp two_days (-1) = Py.Ok fds
    ∧ length fds = 1%nat
    ∧ ¬ (Z.of_nat (length fds) <= -1).
Proof.
  eexists. split; [by vm_compute|]. split; [done|]. cbn. lia.
Qed.

End AggregatorClaims.

(** ** Rounding to the nearest float *)

Section Rounding.

Lemma round_ge_int (x : Q) (L : Z) :
  (inject_Z L <= x)%Q → L <= Py.round_half_even x.
Proof.
  destruct x as [n d]. unfold Qle, Py.round_half_even.
  cbn [Qnum Qden inject_Z]. rewrite Z.mul_1_r. intros H.
  assert (Hfl : L <= n / Z.pos d) by (apply Z.div_le_lower_bound; lia).
  destruct (_ <? _); [done|]. destruct (_ <? _); [lia|].
  destruct (Z.even _); lia.
Qed.

Lemma round_le_int (x : Q) (L : Z) :
  (x <= inject_Z L)%Q → Py.round_half_even x <= L.
Proof.
  destruct x as [n d]. unfold Qle, Py.round_half_even.
  cbn [Qnum Qden inject_Z]. rewrite Z.mul_1_r. intros H.
  pose proof (Z.div_mod n (Z.pos d)) as Hdm.
  pose proof (Z.mod_pos_bound n (Z.pos d)) as Hmod.
  assert (Hfl : n / Z.pos d <= L) by (apply Z.div_le_upper_bound; lia).
  destruct (Z.ltb_spec (2 * (n mod Z.pos d)) (Z.pos d)); [done|].
  assert (n / Z.pos d < L) by nia.
  destruct (_ <? _); [lia|]. destruct (Z.even _); lia.
Qed.

Lemma pow2_pos (e : Z) : (0 < 2 ^ e)%Q.
Proof. by apply Qpower_0_lt. Qed.

Lemma pow2_inject (n : Z) : 0 <= n → (2 ^ n == inject_Z (2 ^ n))%Q.
Proof. intros Hn. by rewrite Zpower_Qpower. Qed.

(** [ilog2] does not overshoot. *)
Lemma ilog2_le (a : Q) : (0 < a)%Q → (2 ^ Py.ilog2 a <= a)%Q.
Proof.
  intros Ha. unfold Py.ilog2.
  destruct (Qle_bool _ a) eqn:E; [by apply Qle_bool_iff|]. clear E.
  destruct a as [n d]. cbn [Qnum Qden].
  assert (Hn : 0 < n) by (unfold Qlt in Ha; cbn in Ha; lia).
  pose proof (Z.log2_spec n Hn) as [Hln _].
  pose proof (Z.log2_spec (Z.pos d) eq_refl) as [_ Hld].
  pose proof (Z.log2_nonneg n) as Hln0.
  pose proof (Z.log2_nonneg (Z.pos d)) as Hld0.
  set (ln := Z.log2 n) in *. set (ld := Z.log2 (Z.pos d)) in *.
  replace (ln - ld - 1) with (ln - Z.succ ld) by lia.
  rewrite Qpower_minus by done.
  rewrite !pow2_inject by lia.
  assert (Hpos : 0 < 2 ^ Z.succ ld) by (apply Z.pow_pos_nonneg; lia).
  apply Qle_shift_div_r.
  - change 0%Q with (inject_Z 0). by rewrite <- Zlt_Qlt.
  - unfold Qle. cbn [Qnum Qden inject_Z Qmult]. nia.
Qed.

(** Rounding does not cross a multiple of the unit in the last place. *)
Lemma rnd_multiple (q : Q) (L : Z) :
  ¬ (q == 0)%Q →
  ((inject_Z L * Py.ulp q <= q)%Q → (inject_Z L * Py.ulp q <= Py.rnd q)%Q)
  ∧ ((q <= inject_Z L * Py.ulp q)%Q → (Py.rnd q <= inject_Z L * Py.ulp q)%Q).
Proof.
  intros Hq. unfold Py.rnd.
  destruct (Qeq_bool q 0) eqn:E; [by apply Qeq_bool_iff in E|]. clear E.
  assert (HP : (0 < Py.ulp q)%Q) by apply pow2_pos.
  set (P := Py.ulp q) in *.
  rewrite Qred_correct. split; intros H.
  - apply Qmult_le_compat_r; [|by apply Qlt_le_weak].
    rewrite <- Zle_Qle. apply round_ge_int. by apply Qle_shift_div_l.
  - apply Qmult_le_compat_r; [|by apply Qlt_le_weak].
    rewrite <- Zle_Qle. apply round_le_int. by apply Qle_shift_div_r.
Qed.

Lemma opp_mult (a b : Q) : (- a * b == - (a * b))%Q.
Proof. ring. Qed.

(** Where the integers up to [2 ^ 53] stand among the multiples of the
    unit in the last place of [q]: either all of them are multiples, or
    [q] lies beyond [2 ^ 53] on one side, behind a multiple. *)
Lemma rnd_exponent (q : Q) :
  ¬ (q == 0)%Q →
  (∀ z : Z, ∃ L : Z, (inject_Z L * Py.ulp q == inject_Z z)%Q)
  ∨ ((inject_Z (2 ^ 53) <= inject_Z (2 ^ 52) * Py.ulp q)%Q
     ∧ (inject_Z (2 ^ 52) * Py.ulp q <= q)%Q)
  ∨ ((inject_Z (- 2 ^ 52) * Py.ulp q <= inject_Z (- 2 ^ 53))%Q
     ∧ (q <= inject_Z (- 2 ^ 52) * Py.ulp q)%Q).
Proof.
  intros Hq. unfold Py.ulp.
  set (e := Z.max (Py.ilog2 (Qabs q) - 52) (-1074)).
  destruct (Z.le_gt_cases e 0) as [He|He].
  - left. intros z. exists (z * 2 ^ (- e)).
    rewrite inject_Z_mult, <- pow2_inject by lia.
    rewrite <- Qmult_assoc, <- Qpower_plus by done.
    replace (- e + e) with 0 by lia. apply Qmult_1_r.
  - right.
    assert (Hlog : Py.ilog2 (Qabs q) = 52 + e) by lia.
    assert (Habs : (0 < Qabs q)%Q).
    { clear -Hq. destruct q as [n d]. revert Hq.
      unfold Qeq, Qlt, Qabs. cbn [Qnum Qden]. lia. }
    pose proof (ilog2_le (Qabs q) Habs) as Hle. rewrite Hlog in Hle.
    rewrite Qpower_plus, pow2_inject in Hle by done.
    assert (Hbig : (inject_Z (2 ^ 53) <= inject_Z (2 ^ 52) * 2 ^ e)%Q).
    { replace (2 ^ 53) with (2 ^ 52 * 2 ^ 1) by done.
      rewrite inject_Z_mult. apply Qmult_le_l; [done|].
      rewrite <- pow2_inject by done. by apply Qpower_le_compat_l; [lia|]. }
    destruct (Qlt_le_dec q 0) as [Hneg|Hpos].
    + right. rewrite Qabs_neg in Hle by by apply Qlt_le_weak.
      rewrite !inject_Z_opp, opp_mult. split.
      * by apply Qopp_le_compat.
      * rewrite <- (Qopp_involutive q). by apply Qopp_le_compat.
    + left. rewrite Qabs_pos in Hle by done. done.
Qed.

(** Rounding does not cross an integer of magnitude up to [2 ^ 53]: such
    an integer is a float. *)
Lemma rnd_ge_int (q : Q) (z : Z) :
  - 2 ^ 53 <= z <= 2 ^ 53 → (inject_Z z <= q)%Q → (inject_Z z <= Py.rnd q)%Q.
Proof.
  intros [Hlo Hhi] Hz.
  destruct (Qeq_dec q 0) as [H0|Hq].
  - unfold Py.rnd. rewrite (proj2 (Qeq_bool_iff q 0) H0). by rewrite <- H0.
  - rewrite Zle_Qle in Hlo, Hhi.
    destruct (rnd_exponent q Hq) as [Hall|[[Hbig Hle]|[Hbig Hle]]].
    + destruct (Hall z) as [L HL]. rewrite <- HL.
      apply rnd_multiple; [done|]. by rewrite HL.
    + eapply Qle_trans; [exact Hhi|]. eapply Qle_trans; [exact Hbig|].
      by apply rnd_multiple.
    + eapply Qle_trans; [|apply rnd_multiple; [done|]].
      * by eapply Qle_trans.
      * eapply Qle_trans; [exact Hbig|]. by eapply Qle_trans.
Qed.

Lemma rnd_le_int (q : Q) (z : Z) :
  - 2 ^ 53 <= z <= 2 ^ 53 → (q <= inject_Z z)%Q → (Py.rnd q <= inject_Z z)%Q.
Proof.
  intros [Hlo Hhi] Hz.
  destruct (Qeq_dec q 0) as [H0|Hq].
  - unfold Py.rnd. rewrite (proj2 (Qeq_bool_iff q 0) H0). by rewrite <- H0.
  - rewrite Zle_Qle in Hlo, Hhi.
    destruct (rnd_exponent q Hq) as [Hall|[[Hbig Hle]|[Hbig Hle]]].
    + destruct (Hall z) as [L HL]. rewrite <- HL.
      apply rnd_multiple; [done|]. by rewrite HL.
    + eapply Qle_trans; [apply rnd_multiple; [done|]|].
      * eapply Qle_trans; [exact Hz|]. by eapply Qle_trans.
      * by eapply Qle_trans.
    + eapply Qle_trans; [by apply rnd_multiple|].
      by eapply Qle_trans.
Qed.

End Rounding.

(** ** Sums and means *)

Section Sums.

Lemma sum_zeros (l : list Q) : Forall (λ x, x = 0%Q) l → Py.sum l = 0%Q.
Proof.
  unfold Py.sum. induction 1 as [|x l -> _ IH]; [done|]. exact IH.
Qed.

(** A sum of floats none of which is negative is not negative. *)
Lemma sum_nonneg (l : list Q) :
  Forall (λ x, (0 <= x)%Q) l → (0 <= Py.sum l)%Q.
Proof.
  unfold Py.sum. intros Hall.
  assert (Hacc : ∀ acc, (0 <= acc)%Q → (0 <= fold_left Py.add l acc)%Q).
  { induction Hall as [|x l Hx _ IH]; intros acc Hacc; [done|].
    cbn [fold_left]. apply IH. unfold Py.add.
    apply (rnd_ge_int _ 0); [lia|].
    change (inject_Z 0) with (0 + 0)%Q. by apply Qplus_le_compat. }
  apply Hacc, Qle_refl.
Qed.

(** A sum of integers lies between the bounds of its elements, taken as
    many times as there are elements. *)
Lemma sum_int_bounds (l : list Z) (lo hi : Z) :
  Forall (λ x, lo <= x <= hi) l →
  lo * Z.of_nat (length l) <= Py.sum_int l <= hi * Z.of_nat (length l).
Proof.
  unfold Py.sum_int. intros Hall.
  assert (Hacc : ∀ acc,
    acc + lo * Z.of_nat (length l) <= fold_left Z.add l acc
    <= acc + hi * Z.of_nat (length l)).
  { induction Hall as [|x l Hx _ IH]; intros acc; cbn [fold_left length].
    - lia.
    - specialize (IH (acc + x)). lia. }
  specialize (Hacc 0). lia.
Qed.

(** The mean of integers between two bounds that are floats lies between
    the bounds: the division rounds, but not across a float. *)
Lemma mean_int_bounds (l : list Z) (lo hi : Z) :
  l ≠ [] → - 2 ^ 53 <= lo → hi <= 2 ^ 53 →
  Forall (λ x, lo <= x <= hi) l →
  (inject_Z lo <= Spec.mean_int l)%Q ∧ (Spec.mean_int l <= inject_Z hi)%Q.
Proof.
  intros Hne Hlo Hhi Hall.
  pose proof (sum_int_bounds l lo hi Hall) as [Hsl Hsh].
  assert (Hlen : 0 < Z.of_nat (length l)) by (destruct l; [done|cbn; lia]).
  assert (Hpos : (0 < inject_Z (Z.of_nat (length l)))%Q).
  { change 0%Q with (inject_Z 0). by rewrite <- Zlt_Qlt. }
  assert (Hle : lo <= hi).
  { destruct Hall as [|x l Hx _]; [done|]. lia. }
  unfold Spec.mean_int, Py.truediv. split.
  - apply rnd_ge_int; [lia|]. apply Qle_shift_div_l; [done|].
    by rewrite <- inject_Z_mult, <- Zle_Qle.
  - apply rnd_le_int; [lia|]. apply Qle_shift_div_r; [done|].
    by rewrite <- inject_Z_mult, <- Zle_Qle.
Qed.

(** Beyond [2 ^ 53] the bounds can fail: the mean of the one integer
    [2 ^ 53 + 1] is the float [2 ^ 53]. *)
Lemma mean_int_beyond_floats :
  (Spec.mean_int [(2 ^ 53 + 1)%Z] < inject_Z (2 ^ 53 + 1))%Q.
Proof. vm_compute. reflexivity. Qed.

End Sums.

(** ** More on the forecast aggregator *)

Section AggregatorMore.

Import WeatherService Spec.

Variable fromtimestamp : Z → Py.datetime.

Lemma slice_to_negative {A} (xs : list A) n :
  n < 0 → Py.slice_to xs n = take (length xs - Z.to_nat (- n)) xs.
Proof. unfold Py.slice_to. intros Hn. by rewrite (proj2 (Z.leb_gt 0 n)). Qed.

Lemma fmap_slice_to {A B} (f : A → B) (xs : list A) n :
  f <$> Py.slice_to xs n = Py.slice_to (f <$> xs) n.
Proof.
  unfold Py.slice_to. rewrite length_fmap. by destruct (0 <=? n); rewrite fmap_take.
Qed.

(** The result of the aggregator, for every day count: the entries are
    summaries of the readings of their dates, and their dates are the slice
    of the ascending dates. *)
Lemma parse_forecast_slice l days :
  ∃ fds,
    _parse_forecast fromtimestamp l days = Py.Ok fds
    ∧ dates_of fds
      = Py.slice_to
          (sorted (map_to_list (group_by_date fromtimestamp l))).*1 days
    ∧ Forall (λ fd,
        ForecastDay.date fd ∈ date_of fromtimestamp <$> l
        ∧ summarises
            (readings_on fromtimestamp (ForecastDay.date fd) l) fd) fds.
Proof.
  set (entries := sorted (map_to_list (group_by_date fromtimestamp l))).
  assert (Hin : Forall (λ e, e.1 ∈ date_of fromtimestamp <$> l
                             ∧ e.2 = readings_on fromtimestamp e.1 l)
                  (Py.slice_to entries days)).
  { destruct (slice_to_take entries days) as (k & -> & _).
    apply Forall_forall. intros [d rs] He%elem_of_take_full.
    by apply (proj1 (proj2 (sorted_entries fromtimestamp l))) in He. }
  destruct (aggregate_all (Py.slice_to entries days)) as (fds & Hp & Hall).
  { eapply Forall_impl; [exact Hin|]. intros [d rs] [Hd ->] Hnil.
    by apply readings_on_nil in Hnil. }
  exists fds. split; [done|]. split.
  - rewrite <- fmap_slice_to. by apply summaries_dates.
  - by apply (summaries_of_readings fromtimestamp l _ _ Hall).
Qed.

Lemma distinct_dates_nil l : distinct_dates fromtimestamp l = [] ↔ l = [].
Proof.
  split; [|by intros ->].
  destruct l as [|item l]; [done|]. intros Hnil.
  assert (Hin : date_of fromtimestamp item
                ∈ distinct_dates fromtimestamp (item :: l)).
  { apply elem_of_remove_dups. apply list_elem_of_here. }
  rewrite Hnil in Hin. by apply elem_of_nil in Hin.
Qed.

End AggregatorMore.

Section AggregatorProperties.

Import WeatherService Spec.

(** X1. For a day count [days >= 0] the aggregator returns the empty list
    exactly when the input holds no reading or [days = 0]. *)
Theorem parse_forecast_empty_iff fromtimestamp l days :
  0 <= days →
  ∃ fds,
    _parse_forecast fromtimestamp l days = Py.Ok fds
    ∧ (fds = [] ↔ l = [] ∨ days = 0).
Proof.
  intros Hdays.
  destruct (parse_forecast_slice fromtimestamp l days) as (fds & Hp & Hd & _).
  destruct (entry_dates fromtimestamp l) as (_ & _ & Hlen).
  exists fds. split; [done|].
  assert (Hl : length fds
               = Nat.min (Z.to_nat days)
                   (length (distinct_dates fromtimestamp l))).
  { rewrite <- (length_fmap ForecastDay.date). fold (dates_of fds).
    unfold Py.slice_to in Hd. rewrite (proj2 (Z.leb_le 0 days)) in Hd by done.
    by rewrite Hd, length_take, Hlen. }
  pose proof (distinct_dates_nil fromtimestamp l) as Hnil.
  split.
  - intros ->. cbn in Hl.
    destruct (distinct_dates fromtimestamp l) as [|d ds] eqn:Hds.
    + left. by apply Hnil.
    + right. cbn in Hl. lia.
  - intros [-> | ->]; (destruct fds; [done|]); cbn in Hl; lia.
Qed.

Lemma parse_forecast_empty_iff_witness :
  ∃ fds, _parse_forecast utc_fromtimestamp two_days 0 = Py.Ok fds ∧ fds = [].
Proof.
  destruct (parse_forecast_empty_iff utc_fromtimestamp two_days 0)
    as (fds & Hp & Hiff); [done|].
  exists fds. split; [exact Hp|]. apply Hiff. by right.
Defined.

(** X2. For a negative day count the slice [[:days]] drops the last [-days]
    dates: the result holds the earliest dates, and as many as there are
    dates beyond [-days]. *)
Theorem parse_forecast_negative_days fromtimestamp l days :
  days < 0 →
  ∃ fds,
    _parse_forecast fromtimestamp l days = Py.Ok fds
    ∧ length fds
      = (length (distinct_dates fromtimestamp l) - Z.to_nat (- days))%nat
    ∧ StronglySorted date_lt (dates_of fds)
    ∧ (∀ d d', d ∈ date_of fromtimestamp <$> l → d ∉ dates_of fds →
               d' ∈ dates_of fds → date_lt d' d).
Proof.
  intros Hdays.
  destruct (parse_forecast_slice fromtimestamp l days) as (fds & Hp & Hd & _).
  destruct (entry_dates fromtimestamp l) as (Hsorted & Hmem & Hlen).
  rewrite slice_to_negative in Hd by done. rewrite Hlen in Hd.
  exists fds. split; [done|]. split_and!.
  - rewrite <- (length_fmap ForecastDay.date). fold (dates_of fds).
    rewrite Hd, length_take, Hlen. lia.
  - rewrite Hd. by apply ascending_take.
  - intros d d' Hin. rewrite Hd. apply ascending_take_earliest; [done|].
    by apply Hmem.
Qed.

Lemma parse_forecast_negative_days_witness :
  ∃ fds, _parse_forecast utc_fromtimestamp five_days (-2) = Py.Ok fds
         ∧ length fds = 3%nat.
Proof.
  destruct (parse_forecast_negative_days utc_fromtimestamp five_days (-2))
    as (fds & Hp & Hlen & _); [done|].
  exists fds. split; [exact Hp|]. rewrite Hlen. by vm_compute.
Defined.

(** X3. In every entry the smallest temperature is at most the largest;
    every reading kept in [details] has its temperature between the two,
    and no reading has a wind above [wind_speed_max]. *)
Theorem parse_forecast_temperature_order fromtimestamp l days :
  ∃ fds,
    _parse_forecast fromtimestamp l days = Py.Ok fds
    ∧ Forall (λ fd,
        (ForecastDay.temp_min fd <= ForecastDay.temp_max fd)%Q
        ∧ ∀ r, r ∈ ForecastDay.details fd →
            (ForecastDay.temp_min fd <= Reading.temperature r)%Q
            ∧ (Reading.temperature r <= ForecastDay.temp_max fd)%Q
            ∧ (Reading.wind_speed r <= ForecastDay.wind_speed_max fd)%Q) fds.
Proof.
  destruct (parse_forecast_slice fromtimestamp l days) as (fds & Hp & _ & Hall).
  exists fds. split; [done|].
  eapply Forall_impl; [exact Hall|].
  intros fd [_ (-> & [_ Hmin] & [Hin Hmax] & _ & _ & [_ Hwind] & _)].
  split; [by apply Hmin|].
  intros r Hr. split_and!.
  - by apply Hmin, list_elem_of_fmap_2.
  - by apply Hmax, list_elem_of_fmap_2.
  - by apply Hwind, list_elem_of_fmap_2.
Qed.

(** X4. Bounds on the humidity of the readings carry over to the mean
    humidity of every entry: readings between [lo] and [hi] percent give
    means between [lo] and [hi].  The bounds are integers that are floats,
    of magnitude up to [2 ^ 53]; the division of the sum by the count
    rounds, but not across such a bound. *)
Theorem parse_forecast_humidity_range fromtimestamp l days (lo hi : Z) :
  - 2 ^ 53 <= lo → hi <= 2 ^ 53 →
  Forall (λ item, lo <= Item.humidity item <= hi) l →
  ∃ fds,
    _parse_forecast fromtimestamp l days = Py.Ok fds
    ∧ Forall (λ fd,
        (inject_Z lo <= ForecastDay.humidity_avg fd)%Q
        ∧ (ForecastDay.humidity_avg fd <= inject_Z hi)%Q) fds.
Proof.
  intros Hlo Hhi Hbound.
  destruct (parse_forecast_slice fromtimestamp l days) as (fds & Hp & _ & Hall).
  exists fds. split; [done|].
  eapply Forall_impl; [exact Hall|].
  intros fd [_ (_ & _ & _ & _ & -> & _ & _ & _ & mid & Hmid & _)].
  apply mean_int_bounds; [|done|done|].
  - intros Hnil%fmap_nil_inv. by rewrite Hnil in Hmid.
  - apply Forall_fmap, Forall_forall. intros r Hr.
    unfold readings_on in Hr.
    apply list_elem_of_fmap in Hr as (item & -> & Hitem).
    apply list_elem_of_filter in Hitem as [_ Hitem].
    rewrite Forall_forall in Hbound. by apply Hbound.
Qed.

Lemma parse_forecast_humidity_range_witness :
  ∃ fds, _parse_forecast utc_fromtimestamp two_days 5 = Py.Ok fds
         ∧ Forall (λ fd, (0 <= ForecastDay.humidity_avg fd)%Q
                         ∧ (ForecastDay.humidity_avg fd <= 100)%Q) fds.
Proof.
  apply (parse_forecast_humidity_range utc_fromtimestamp two_days 5 0 100);
    [lia|lia|].
  unfold two_days. repeat constructor; by vm_compute.
Defined.

(** Beyond [2 ^ 53] the bounds on the mean humidity fail: one reading
    with a humidity of [2 ^ 53 + 1] gets the mean [2 ^ 53], below the
    reading. *)
Lemma parse_forecast_humidity_beyond_floats :
  ∃ fd,
    _parse_forecast utc_fromtimestamp [SpecMore.item_with 20 (2 ^ 53 + 1)] 5
    = Py.Ok [fd]
    ∧ (ForecastDay.humidity_avg fd < inject_Z (2 ^ 53 + 1))%Q.
Proof. eexists. split; [by vm_compute|]. vm_compute. reflexivity. Qed.

End AggregatorProperties.

Section Conservation.

Import WeatherService Spec.

(** Splitting a list by the keys of its elements loses and repeats
    nothing, when the keys are pairwise different and no key of the list
    is missing. *)
Lemma concat_by_key {A B K} `{EqDecision K} (key : A → K) (g : A → B)
    (ks : list K) (xs : list A) :
  NoDup ks →
  Forall (λ x, key x ∈ ks) xs →
  concat ((λ k, g <$> filter (λ x, key x = k) xs) <$> ks) ≡ₚ g <$> xs.
Proof.
  intros Hnd. revert xs. induction Hnd as [|k ks Hk Hnd IH]; intros xs Hxs.
  - destruct xs as [|x xs]; [done|].
    apply Forall_cons in Hxs as [Hx _]. by apply elem_of_nil in Hx.
  - rewrite fmap_cons. cbn [concat].
    etransitivity;
      [|apply (fmap_Permutation g),
          (filter_app_complement (λ x, key x = k) xs)].
    rewrite fmap_app. apply Permutation_app; [done|].
    rewrite <- (IH (filter (λ x, ¬ key x = k) xs)).
    + apply Permutation_refl'. f_equal. apply Forall_fmap_ext_1.
      apply Forall_forall. intros k' Hk'. f_equal.
      rewrite list_filter_filter.
      apply list_filter_iff. intros x. split; [|by intros [? _]].
      intros <-. split; [done|]. intros Hk2. apply Hk. by rewrite <- Hk2.
    + apply Forall_forall. intros x [Hne Hx]%list_elem_of_filter.
      rewrite Forall_forall in Hxs.
      by destruct (elem_of_cons ks (key x) k) as [[?|?] _]; [by apply Hxs|..].
Qed.

Lemma concat_fmap_each {A B} (f : A → B) (ls : list (list A)) :
  concat ((λ l : list A, f <$> l) <$> ls) = f <$> concat ls.
Proof.
  induction ls as [|l ls IH]; [done|].
  rewrite fmap_cons. cbn [concat]. by rewrite fmap_app, IH.
Qed.

Lemma details_of_dates fromtimestamp l fds :
  Forall (λ fd,
    ForecastDay.date fd ∈ date_of fromtimestamp <$> l
    ∧ summarises (readings_on fromtimestamp (ForecastDay.date fd) l) fd) fds →
  ForecastDay.details <$> fds
  = (λ d, readings_on fromtimestamp d l) <$> dates_of fds.
Proof.
  unfold dates_of. induction 1 as [|fd fds [_ [Hd _]] _ IH]; [done|].
  cbn. by rewrite Hd, IH.
Qed.

(** Without truncation the [details] of the entries, put end to end, are
    a rearrangement of the readings built from the provider list. *)
Lemma details_permutation fromtimestamp l days fds :
  Z.of_nat (length (distinct_dates fromtimestamp l)) <= days →
  _parse_forecast fromtimestamp l days = Py.Ok fds →
  concat (ForecastDay.details <$> fds) ≡ₚ reading_of fromtimestamp <$> l.
Proof.
  intros Hdays Hfds.
  destruct (parse_forecast_dates fromtimestamp l days)
    as (fds' & k & Hp & Hd & Hall & Hk).
  rewrite Hfds in Hp. injection Hp as <-.
  destruct (entry_dates fromtimestamp l) as (Hsorted & Hmem & Hlen).
  rewrite take_ge in Hd by lia.
  rewrite (details_of_dates fromtimestamp l fds Hall), Hd.
  apply (concat_by_key (date_of fromtimestamp)).
  - by apply ascending_NoDup.
  - apply Forall_forall. intros item Hitem.
    by apply Hmem, list_elem_of_fmap_2.
Qed.

(** X5. When the day count does not truncate, the readings kept in the
    [details] of the entries are the readings of the input, each once. *)
Theorem parse_forecast_keeps_readings fromtimestamp l days :
  Z.of_nat (length (distinct_dates fromtimestamp l)) <= days →
  ∃ fds,
    _parse_forecast fromtimestamp l days = Py.Ok fds
    ∧ concat (ForecastDay.details <$> fds) ≡ₚ reading_of fromtimestamp <$> l
    ∧ length (concat (ForecastDay.details <$> fds)) = length l.
Proof.
  intros Hdays.
  destruct (parse_forecast_dates fromtimestamp l days)
    as (fds & k & Hp & _).
  pose proof (details_permutation fromtimestamp l days fds Hdays Hp) as Hperm.
  exists fds. split; [done|]. split; [done|].
  by rewrite Hperm, length_fmap.
Qed.

Lemma parse_forecast_keeps_readings_witness :
  ∃ fds, _parse_forecast utc_fromtimestamp two_days 5 = Py.Ok fds
         ∧ length (concat (ForecastDay.details <$> fds)) = 8%nat.
Proof.
  assert (Hdays : Z.of_nat (length (distinct_dates utc_fromtimestamp two_days))
                  <= 5).
  { vm_compute. discriminate. }
  destruct (parse_forecast_keeps_readings utc_fromtimestamp two_days 5 Hdays)
    as (fds & Hp & _ & Hlen).
  exists fds. split; [exact Hp|]. exact Hlen.
Defined.

(** X6. No total is negative: when no item reports a negative amount of
    rain or snow, every entry has [total_rain >= 0] and [total_snow >= 0].
    The additions round, but not across 0. *)
Theorem parse_forecast_total_rain fromtimestamp l days :
  Forall (λ item,
    (0 <= Reading.rain (reading_of fromtimestamp item))%Q
    ∧ (0 <= Reading.snow (reading_of fromtimestamp item))%Q) l →
  ∃ fds,
    _parse_forecast fromtimestamp l days = Py.Ok fds
    ∧ Forall (λ fd,
        (0 <= ForecastDay.total_rain fd)%Q
        ∧ (0 <= ForecastDay.total_snow fd)%Q) fds.
Proof.
  intros Hpos.
  destruct (parse_forecast_slice fromtimestamp l days) as (fds & Hp & _ & Hall).
  exists fds. split; [done|].
  eapply Forall_impl; [exact Hall|].
  intros fd [_ (_ & _ & _ & _ & _ & _ & -> & -> & _)].
  rewrite Forall_forall in Hpos.
  split; apply sum_nonneg, Forall_fmap, Forall_forall; intros r Hr;
    unfold readings_on in Hr;
    apply list_elem_of_fmap in Hr as (item & -> & Hitem);
    apply list_elem_of_filter in Hitem as [_ Hitem];
    by apply Hpos.
Qed.

Lemma parse_forecast_total_rain_witness :
  ∃ fds, _parse_forecast utc_fromtimestamp two_days 5 = Py.Ok fds
         ∧ Forall (λ fd, (0 <= ForecastDay.total_rain fd)%Q) fds.
Proof.
  destruct (parse_forecast_total_rain utc_fromtimestamp two_days 5)
    as (fds & Hp & Hall).
  - unfold two_days. repeat constructor; vm_compute; discriminate.
  - exists fds. split; [exact Hp|].
    eapply Forall_impl; [exact Hall|]. by intros fd [? _].
Defined.

(** X7. A date none of whose items reports rain (no [rain] dictionary, or one
    without the key [3h]) gets a total rain of 0. *)
Theorem parse_forecast_missing_rain fromtimestamp l days :
  ∃ fds,
    _parse_forecast fromtimestamp l days = Py.Ok fds
    ∧ Forall (λ fd,
        (∀ item, item ∈ l →
                 date_of fromtimestamp item = ForecastDay.date fd →
                 default ∅ (Item.rain item) !! "3h" = None) →
        ForecastDay.total_rain fd = 0%Q) fds.
Proof.
  destruct (parse_forecast_slice fromtimestamp l days) as (fds & Hp & _ & Hall).
  exists fds. split; [done|].
  eapply Forall_impl; [exact Hall|].
  intros fd [_ (_ & _ & _ & _ & _ & _ & -> & _)] Hno.
  apply sum_zeros. apply Forall_fmap, Forall_forall. intros r Hr.
  unfold readings_on in Hr.
  apply list_elem_of_fmap in Hr as (item & -> & Hitem).
  apply list_elem_of_filter in Hitem as [Hd Hitem].
  cbn. by rewrite (Hno item Hitem Hd).
Qed.

End Conservation.

(** ** More on the agriculture evaluator *)

Section AgricultureMore.

Import RecommendationEngine Spec SpecMore.

(** X8. The humidity rule: at or above [high_humidity] the bundle holds the
    humidity alert (kind info, severity medium), the advisory on fungal
    infection and the fungicide task; below it, none of the three. *)
Theorem agri_humidity_rule self month w fc :
  let b := get_agriculture_recommendations self month w fc in
  let limit := Config.high_humidity (ag_thresholds self) in
  let h := Weather.humidity w in
  ((limit <= inject_Z h)%Q →
     (∃ a, a ∈ AgricultureBundle.alerts b ∧ a = high_humidity_alert h
           ∧ Alert.type a = "info" ∧ Alert.severity a = "medium")
     ∧ ("Monitor crops for signs of fungal infection"
          ∈ AgricultureBundle.recommendations b)
     ∧ ("Apply preventive fungicide if needed" ∈ AgricultureBundle.tasks b))
  ∧ (¬ (limit <= inject_Z h)%Q →
     (∀ a, a ∈ AgricultureBundle.alerts b → ¬ is_humidity_alert a)
     ∧ ("Monitor crops for signs of fungal infection"
          ∉ AgricultureBundle.recommendations b)
     ∧ ("Apply preventive fungicide if needed"
          ∉ AgricultureBundle.tasks b)).
Proof.
  intros b limit h. subst b limit h. split.
  - intros Hh. apply Qle_bool_iff in Hh. split_and!.
    + eexists. split; [|done]. apply ag_alerts_spec. unfold humid. auto 10.
    + apply ag_recommendations_spec. unfold humid. auto 10.
    + apply ag_tasks_spec. unfold humid. auto 10.
  - intros Hh. apply Qle_bool_not_iff in Hh. split_and!.
    + intros a Ha [x Hx]. apply ag_alerts_spec in Ha. unfold humid in Ha.
      destruct Ha as [[-> _]|[[-> _]|[[-> _]|[_ Hc]]]];
        try discriminate Hx. congruence.
    + intros Hin. apply ag_recommendations_spec in Hin. unfold humid in Hin.
      destruct Hin as [[Hs _]|[[Hs _]|[[Hs _]|[[_ Hc]|Hin]]]];
        try discriminate Hs; [congruence|].
      pose proof (crop_advice_cases month w) as Hcases.
      cbn [fmap list_fmap] in Hcases.
      rewrite !elem_of_cons, elem_of_nil in Hcases.
      destruct Hcases as [Hc|[Hc|[Hc|[Hc|[]]]]]; rewrite Hc in Hin;
        match type of Hin with
        | _ ∈ ?l => let l' := eval vm_compute in l in change l with l' in Hin
        end;
        revert Hin; not_in_list.
    + intros Hin. apply ag_tasks_spec in Hin. unfold humid in Hin.
      destruct Hin as [[Hs _]|[[Hs _]|[[Hs _]|[[Hs _]|[[Hs _]|[[Hs _]|[_ Hc]]]]]]];
        try discriminate Hs. congruence.
Qed.

Lemma agri_humidity_rule_witness :
  let b := get_agriculture_recommendations init 1 dry_snapshot None in
  (∀ a, a ∈ AgricultureBundle.alerts b → ¬ is_humidity_alert a)
  ∧ ("Apply preventive fungicide if needed" ∉ AgricultureBundle.tasks b).
Proof.
  intros b.
  destruct (agri_humidity_rule init 1 dry_snapshot None) as [_ Hlow].
  destruct Hlow as (Ha & _ & Ht).
  - vm_compute. intros H. by apply H.
  - by split.
Defined.

(** X9. The agriculture bundle holds at most three alerts, and none exactly
    when the wind is within the spraying limit, the temperature lies
    strictly between frost and heat stress, and the humidity is below its
    limit. *)
Theorem agri_alerts_quiet self month w fc :
  let b := get_agriculture_recommendations self month w fc in
  let th := ag_thresholds self in
  (length (AgricultureBundle.alerts b) ≤ 3)%nat
  ∧ (AgricultureBundle.alerts b = [] ↔
       (Weather.wind_speed w <= Config.wind_speed_spray th)%Q
       ∧ (Config.frost_temp th < Weather.temperature w)%Q
       ∧ (Weather.temperature w < Config.heat_stress th)%Q
       ∧ (inject_Z (Weather.humidity w) < Config.high_humidity th)%Q).
Proof.
  intros b th. subst b th.
  rewrite <- Qltb_false_iff, <- !Qle_bool_false_iff.
  unfold get_agriculture_recommendations.
  generalize high_wind_alert, frost_alert, heat_stress_alert,
    high_humidity_alert; intros.
  branches; cbn [AgricultureBundle.alerts app length];
    (split; [lia|]); (split; [try done; intuition congruence|]);
    intros (? & ? & ? & ?); congruence.
Qed.

(** X10. The seasonal advice is always attached: it has three entries, it is
    the entry of the calendar for the season of the month, and it closes
    the list of advisories. *)
Theorem agri_crop_advice_last self month w fc :
  let b := get_agriculture_recommendations self month w fc in
  length (AgricultureBundle.crop_advice b) = 3%nat
  ∧ crop_calendar !! _get_season month
    = Some (AgricultureBundle.crop_advice b)
  ∧ ∃ front,
      AgricultureBundle.recommendations b
      = front ++ AgricultureBundle.crop_advice b
      ∧ (length front ≤ 2)%nat.
Proof.
  intros b. subst b.
  assert (Hadvice :
    AgricultureBundle.crop_advice
      (get_agriculture_recommendations self month w fc)
    = _get_crop_advice (_get_season month) w).
  { unfold get_agriculture_recommendations.
    generalize (_get_crop_advice (_get_season month) w).
    generalize heavy_rain_text, light_rain_text, upcoming_rain_text,
      high_wind_alert, frost_alert, heat_stress_alert, high_humidity_alert.
    intros. forget_texts. by branches. }
  rewrite Hadvice. split_and!.
  - unfold _get_season, _get_crop_advice.
    repeat case_bool_decide; vm_compute; reflexivity.
  - unfold _get_season, _get_crop_advice.
    repeat case_bool_decide; vm_compute; reflexivity.
  - unfold get_agriculture_recommendations.
    generalize (_get_crop_advice (_get_season month) w).
    generalize heavy_rain_text, light_rain_text, upcoming_rain_text,
      high_wind_alert, frost_alert, heat_stress_alert, high_humidity_alert.
    intros. forget_texts.
    branches; cbn [AgricultureBundle.recommendations];
      eexists; (split; [reflexivity|]); cbn [app length]; lia.
Qed.

(** X11. The season of a month: December to February is winter, March to May
    spring, June to August summer, and every other number autumn, also one
    that is no month; each season has its entry in the crop calendar. *)
Theorem season_of_month month :
  (_get_season month = "winter" ↔ month ∈ [12; 1; 2])
  ∧ (_get_season month = "spring" ↔ month ∈ [3; 4; 5])
  ∧ (_get_season month = "summer" ↔ month ∈ [6; 7; 8])
  ∧ (_get_season month = "autumn"
     ↔ month ∉ [12; 1; 2; 3; 4; 5; 6; 7; 8])
  ∧ is_Some (crop_calendar !! _get_season month).
Proof.
  unfold _get_season.
  repeat case_bool_decide;
    repeat match goal with
    | H : _ ∈ _ |- _ => rewrite ?elem_of_cons, elem_of_nil in H
    | H : _ ∉ _ |- _ => rewrite ?elem_of_cons, elem_of_nil in H
    end;
    rewrite ?elem_of_cons, ?elem_of_nil;
    (split_and!;
       [split; intros; try done; try lia..|eexists; vm_compute; reflexivity]).
Qed.

(** X12. Spraying is among the suitable activities exactly on a dry hour with
    wind below 20 km/h and a temperature from 10 to 30 degrees, whatever the
    thresholds of the engine.  With the default thresholds a bundle with
    the high-wind alert never lists it; but at a wind of exactly 20 km/h
    the tasks call the conditions good for spraying while the suitable
    activities leave spraying out. *)
Theorem agri_spraying_activity :
  (∀ w,
     "Pesticide/fertilizer application" ∈ _get_suitable_farm_activities w
     ↔ (default 0 (Weather.rain_1h w) < 1)%Q
       ∧ (Weather.wind_speed w < 20)%Q
       ∧ (10 <= Weather.temperature w)%Q
       ∧ (Weather.temperature w <= 30)%Q)
  ∧ (∀ month w fc,
       let b := get_agriculture_recommendations init month w fc in
       (∃ a, a ∈ AgricultureBundle.alerts b ∧ is_high_wind_alert a) →
       "Pesticide/fertilizer application"
         ∉ AgricultureBundle.suitable_activities b)
  ∧ (∀ month w fc,
       let b := get_agriculture_recommendations init month w fc in
       (Weather.wind_speed w == 20)%Q →
       ("✓ Good conditions for spraying operations"
          ∈ AgricultureBundle.tasks b)
       ∧ ("Pesticide/fertilizer application"
            ∉ AgricultureBundle.suitable_activities b)).
Proof.
  assert (Hiff : ∀ w,
     "Pesticide/fertilizer application" ∈ _get_suitable_farm_activities w
     ↔ (default 0 (Weather.rain_1h w) < 1)%Q
       ∧ (Weather.wind_speed w < 20)%Q
       ∧ (10 <= Weather.temperature w)%Q
       ∧ (Weather.temperature w <= 30)%Q).
  { intros w. rewrite <- !Qltb_iff, <- !Qle_bool_iff.
    unfold _get_suitable_farm_activities.
    destruct (Py.Qltb (default 0%Q (Weather.rain_1h w)) 1),
      (Py.Qltb (Weather.wind_speed w) 20),
      (Qle_bool 10 (Weather.temperature w)),
      (Qle_bool (Weather.temperature w) 30),
      (Qle_bool 1 (default 0%Q (Weather.rain_1h w)));
      cbn [andb app]; unfold full_activities, reduced_activities,
        indoor_activities;
      (split; [try not_in_list; intros _; by split_and!
              |try in_list; intros (? & ? & ? & ?); done]). }
  assert (Hactivities : ∀ self month w fc,
    AgricultureBundle.suitable_activities
      (get_agriculture_recommendations self month w fc)
    = _get_suitable_farm_activities w).
  { intros. unfold get_agriculture_recommendations.
    generalize (_get_suitable_farm_activities w),
      (_get_crop_advice (_get_season month) w).
    generalize heavy_rain_text, light_rain_text, upcoming_rain_text,
      high_wind_alert, frost_alert, heat_stress_alert, high_humidity_alert.
    intros. forget_texts. by branches. }
  split; [exact Hiff|]. split.
  - intros month w fc b (a & Ha & [x Hx]) Hin. subst b.
    rewrite Hactivities in Hin. apply Hiff in Hin as (_ & Hwind & _).
    apply ag_alerts_spec in Ha. unfold windy in Ha.
    destruct Ha as [[_ Hw]|[[-> _]|[[-> _]|[-> _]]]];
      try discriminate Hx.
    apply Qltb_iff in Hw. cbn in Hw.
    apply (Qlt_irrefl 20). by apply (Qlt_trans _ (Weather.wind_speed w)).
  - intros month w fc b Hw. subst b. split.
    + apply ag_tasks_spec. right. left. split; [done|].
      unfold windy. apply Qltb_false_iff. cbn. rewrite Hw. apply Qle_refl.
    + rewrite Hactivities. intros (_ & Hwind & _)%Hiff.
      rewrite Hw in Hwind. by apply (Qlt_irrefl 20).
Qed.

Lemma agri_spraying_activity_witness :
  let b := get_agriculture_recommendations init 1 windy_snapshot None in
  "Pesticide/fertilizer application"
    ∉ AgricultureBundle.suitable_activities b.
Proof.
  intros b. destruct agri_spraying_activity as (_ & Halert & _).
  apply Halert. exists (high_wind_alert 25). split; [|by exists 25%Q].
  vm_compute. by left.
Defined.

(** X13. Of the forecast the agriculture evaluator reads the first three days
    only: two forecasts that agree on them give the same bundle. *)
Theorem agri_first_three_days self month w fc fc' :
  take 3 fc = take 3 fc' →
  get_agriculture_recommendations self month w (Some fc)
  = get_agriculture_recommendations self month w (Some fc').
Proof.
  intros Htake. unfold get_agriculture_recommendations.
  assert (Ht : truthy (Some fc) = truthy (Some fc')).
  { destruct fc, fc'; done. }
  cbn [elements default from_option id]. by rewrite Ht, Htake.
Qed.

Lemma agri_first_three_days_witness :
  get_agriculture_recommendations init 1 dry_snapshot
    (Some [day_of 1 20 10; day_of 2 21 10; day_of 3 22 10; day_of 30 5 80])
  = get_agriculture_recommendations init 1 dry_snapshot
      (Some [day_of 1 20 10; day_of 2 21 10; day_of 3 22 10]).
Proof. by apply agri_first_three_days. Defined.

End AgricultureMore.

(** ** More on the travel evaluator *)

Section TravelMore.

Import RecommendationEngine Spec SpecMore.

(** Which alerts the rules on the current conditions raise *)
Lemma travel_rules_alerts self w a :
  a ∈ (travel_current_rules self w).1.2 ↔
    (a = rain_alert ∧ wet self w = true)
    ∨ (a = wind_alert (Weather.wind_speed w) ∧ gusty self w = true)
    ∨ (a = storm_alert ∧ sunny w = false ∧ stormy w = true)
    ∨ (a = fog_alert ∧ sunny w = false ∧ stormy w = false
       ∧ foggy w = true).
Proof.
  unfold wet, gusty, sunny, stormy, foggy, condition, rain,
    travel_current_rules.
  generalize rain_alert, wind_alert, storm_alert, fog_alert,
    cold_text, hot_text. intros.
  set (description := Py.lower _).
  generalize (Py.contains "rain" description),
    (Py.contains "clear" description), (Py.contains "sun" description),
    (Py.contains "storm" description), (Py.contains "thunder" description),
    (Py.contains "fog" description), (Py.contains "mist" description).
  intros. forget_texts.
  branches; cbn [fst snd app];
    rewrite ?elem_of_cons, elem_of_nil; intuition congruence.
Qed.

(** The rules on the current conditions raise at most three alerts. *)
Lemma travel_rules_alerts_length self w :
  (length (travel_current_rules self w).1.2 ≤ 3)%nat.
Proof.
  unfold travel_current_rules.
  generalize rain_alert, wind_alert, storm_alert, fog_alert,
    cold_text, hot_text. intros.
  set (description := Py.lower _).
  generalize (Py.contains "rain" description),
    (Py.contains "clear" description), (Py.contains "sun" description),
    (Py.contains "storm" description), (Py.contains "thunder" description),
    (Py.contains "fog" description), (Py.contains "mist" description).
  intros. forget_texts.
  branches; cbn [fst snd app length]; lia.
Qed.

(** What the rules on the current conditions pack *)
Lemma travel_rules_packing self w s :
  s ∈ (travel_current_rules self w).2 ↔
    (s ∈ ["Warm jacket"; "Gloves"; "Scarf"; "Thermal wear"]
     ∧ cold self w = true)
    ∨ (s ∈ ["Sunscreen"; "Hat"; "Sunglasses"; "Light clothing";
            "Water bottle"]
       ∧ cold self w = false ∧ warm self w = true)
    ∨ (s ∈ ["Light jacket"; "Comfortable clothing"]
       ∧ cold self w = false ∧ warm self w = false)
    ∨ (s ∈ ["Umbrella"; "Raincoat"; "Waterproof bag"] ∧ wet self w = true).
Proof.
  unfold wet, cold, warm, condition, rain, travel_current_rules.
  generalize rain_alert, wind_alert, storm_alert, fog_alert,
    cold_text, hot_text. intros.
  set (description := Py.lower _).
  generalize (Py.contains "rain" description),
    (Py.contains "clear" description), (Py.contains "sun" description),
    (Py.contains "storm" description), (Py.contains "thunder" description),
    (Py.contains "fog" description), (Py.contains "mist" description).
  intros. forget_texts.
  branches; cbn [fst snd app];
    rewrite ?elem_of_app, ?elem_of_cons, ?elem_of_nil; intuition congruence.
Qed.

(** Which advisories the rules on the current conditions give *)
Lemma travel_rules_advisories self w s :
  s ∈ (travel_current_rules self w).1.1 ↔
    (s = cold_text (Weather.temperature w) ∧ cold self w = true)
    ∨ (s = hot_text (Weather.temperature w)
       ∧ cold self w = false ∧ warm self w = true)
    ∨ (s = "Consider indoor attractions or activities" ∧ wet self w = true)
    ∨ (s = "Avoid outdoor activities in exposed areas"
       ∧ gusty self w = true)
    ∨ (s = "Perfect weather for sightseeing and outdoor activities!"
       ∧ sunny w = true)
    ∨ (s = "Postpone outdoor plans. Seek shelter."
       ∧ sunny w = false ∧ stormy w = true)
    ∨ (s = "Exercise caution while driving. Allow extra travel time."
       ∧ sunny w = false ∧ stormy w = false ∧ foggy w = true).
Proof.
  unfold wet, cold, warm, gusty, sunny, stormy, foggy, condition, rain,
    travel_current_rules.
  generalize rain_alert, wind_alert, storm_alert, fog_alert,
    cold_text, hot_text. intros.
  set (description := Py.lower _).
  generalize (Py.contains "rain" description),
    (Py.contains "clear" description), (Py.contains "sun" description),
    (Py.contains "storm" description), (Py.contains "thunder" description),
    (Py.contains "fog" description), (Py.contains "mist" description).
  intros. forget_texts.
  branches; cbn [fst snd app];
    rewrite ?elem_of_app, ?elem_of_cons, ?elem_of_nil; intuition congruence.
Qed.

(** The bundle of the travel evaluator: its alerts and its packing list
    are those of the rules on the current conditions, and its advisories
    are theirs, followed by at most one forecast summary. *)
Lemma travel_bundle self w fc :
  ∃ b extra,
    get_travel_recommendations self w fc = Py.Ok b
    ∧ TravelBundle.alerts b = (travel_current_rules self w).1.2
    ∧ TravelBundle.packing_list b = (travel_current_rules self w).2
    ∧ TravelBundle.recommendations b
      = (travel_current_rules self w).1.1 ++ extra
    ∧ Forall (λ s, s ∈ forecast_summaries) extra.
Proof.
  destruct (travel_result_cases self w fc) as (extra & outlook & Hr & Hc).
  eexists _, extra. split; [exact Hr|].
  cbn [TravelBundle.alerts TravelBundle.packing_list
       TravelBundle.recommendations].
  split_and!; try done.
  destruct Hc as [(_ & -> & _)|(_ & s & Hs & -> & _)]; [done|].
  constructor; [|done].
  rewrite !elem_of_cons, elem_of_nil in Hs.
  destruct Hs as [->|[->|[->|[]]]]; unfold forecast_summaries; in_list.
Qed.

End TravelMore.

Section TravelProperties.

Import RecommendationEngine Spec SpecMore.

(** X14. The rain rule of the travel evaluator fires when the rain is above
    [rain_warning] or the condition category, in lower case, contains
    "rain"; then and only then the bundle holds the rain alert, the three
    pieces of rain gear and the advisory on indoor activities.  The packing
    list is never empty. *)
Theorem travel_rain_gear self w fc :
  let rainy :=
    (Config.rain_warning (travel_thresholds self) < rain w)%Q
    ∨ Py.contains "rain" (Py.lower (default "" (Weather.main w))) = true in
  ∃ b,
    get_travel_recommendations self w fc = Py.Ok b
    ∧ (rain_alert ∈ TravelBundle.alerts b ↔ rainy)
    ∧ (∀ s, s ∈ ["Umbrella"; "Raincoat"; "Waterproof bag"] →
            (s ∈ TravelBundle.packing_list b ↔ rainy))
    ∧ ("Consider indoor attractions or activities"
         ∈ TravelBundle.recommendations b ↔ rainy)
    ∧ TravelBundle.packing_list b ≠ [].
Proof.
  intros rainy.
  assert (Hwet : wet self w = true ↔ rainy).
  { unfold wet, rainy, condition. rewrite orb_true_iff, Qltb_iff. done. }
  destruct (travel_bundle self w fc) as (b & extra & Hb & Ha & Hp & Hr & He).
  exists b. split; [done|]. rewrite Ha, Hp, Hr. split_and!.
  - rewrite <- Hwet, travel_rules_alerts. split.
    + intros [[_ ?]|[[Hx _]|[[Hx _]|[Hx _]]]]; try done; discriminate Hx.
    + auto.
  - intros s Hs. rewrite <- Hwet, travel_rules_packing. split.
    + intros [[Hin _]|[[Hin _]|[[Hin _]|[_ ?]]]]; try done;
        exfalso; revert Hin; revert Hs;
        rewrite !elem_of_cons, !elem_of_nil;
        intros [->|[->|[->|[]]]] Hin; decompose [or] Hin;
        try discriminate; done.
    + auto 10.
  - rewrite <- Hwet, elem_of_app, travel_rules_advisories. split.
    + intros [[[Hx _]|[[Hx _]|[[_ ?]|[[Hx _]|[[Hx _]|[[Hx _]|[Hx _]]]]]]]|Hin];
        try done; try discriminate Hx.
      rewrite Forall_forall in He. specialize (He _ Hin).
      revert He. unfold forecast_summaries. not_in_list.
    + intros Hw. left. auto 10.
  - intros Hnil.
    assert (Hall : ∀ s, s ∉ (travel_current_rules self w).2)
      by (intros s; rewrite Hnil; apply not_elem_of_nil).
    destruct (cold self w) eqn:Hc; [|destruct (warm self w) eqn:Hh].
    + apply (Hall "Warm jacket"), travel_rules_packing.
      left. split; [in_list|done].
    + apply (Hall "Sunscreen"), travel_rules_packing.
      right. left. split; [in_list|done].
    + apply (Hall "Light jacket"), travel_rules_packing.
      right. right. left. split; [in_list|done].
Qed.

(** X15. The packing rule is a three-way choice on the temperature: at or below
    [cold_weather] the warm clothes and the cold-weather advisory; else at
    or above [hot_weather] the sun protection and the hot-weather advisory;
    else the light jacket.  No bundle mixes the three. *)
Theorem travel_packing_by_temperature self w fc :
  let temp := Weather.temperature w in
  let th := travel_thresholds self in
  ∃ b,
    get_travel_recommendations self w fc = Py.Ok b
    ∧ ((temp <= Config.cold_weather th)%Q →
       Forall (λ s, s ∈ TravelBundle.packing_list b)
         ["Warm jacket"; "Gloves"; "Scarf"; "Thermal wear"]
       ∧ ("Sunscreen" ∉ TravelBundle.packing_list b)
       ∧ ("Light jacket" ∉ TravelBundle.packing_list b)
       ∧ cold_text temp ∈ TravelBundle.recommendations b)
    ∧ (¬ (temp <= Config.cold_weather th)%Q →
       (Config.hot_weather th <= temp)%Q →
       Forall (λ s, s ∈ TravelBundle.packing_list b)
         ["Sunscreen"; "Hat"; "Sunglasses"; "Light clothing"; "Water bottle"]
       ∧ ("Warm jacket" ∉ TravelBundle.packing_list b)
       ∧ ("Light jacket" ∉ TravelBundle.packing_list b)
       ∧ hot_text temp ∈ TravelBundle.recommendations b)
    ∧ (¬ (temp <= Config.cold_weather th)%Q →
       ¬ (Config.hot_weather th <= temp)%Q →
       Forall (λ s, s ∈ TravelBundle.packing_list b)
         ["Light jacket"; "Comfortable clothing"]
       ∧ ("Warm jacket" ∉ TravelBundle.packing_list b)
       ∧ ("Sunscreen" ∉ TravelBundle.packing_list b)
       ∧ (∀ t, (cold_text t ∉ TravelBundle.recommendations b)
               ∧ (hot_text t ∉ TravelBundle.recommendations b))).
Proof.
  intros temp th. subst temp th.
  destruct (travel_bundle self w fc) as (b & extra & Hb & Ha & Hp & Hr & He).
  exists b. split; [done|]. rewrite Hp, Hr.
  assert (Hout : ∀ s, s ∈ ["Warm jacket"; "Sunscreen"; "Light jacket"] →
            s ∈ (travel_current_rules self w).2 →
            (s = "Warm jacket" ∧ cold self w = true)
            ∨ (s = "Sunscreen" ∧ cold self w = false ∧ warm self w = true)
            ∨ (s = "Light jacket" ∧ cold self w = false
               ∧ warm self w = false)).
  { intros s Hs Hin. apply travel_rules_packing in Hin.
    revert Hs. rewrite ?elem_of_cons, ?elem_of_nil in Hin.
    rewrite ?elem_of_cons, ?elem_of_nil.
    intros [->|[->|[->|[]]]];
      decompose [or and] Hin; try discriminate; try done; auto 10. }
  assert (Hpack : ∀ l, Forall (λ s, s ∈ (travel_current_rules self w).2) l ↔
                       ∀ s, s ∈ l → s ∈ (travel_current_rules self w).2)
    by (intros; apply Forall_forall).
  assert (Hextra : ∀ t, (cold_text t ∉ extra) ∧ (hot_text t ∉ extra)).
  { intros t. rewrite Forall_forall in He.
    split; intros Hin%He; revert Hin; unfold forecast_summaries;
      not_in_list. }
  split_and!.
  - intros Hc. apply Qle_bool_iff in Hc. fold (cold self w) in Hc.
    split_and!.
    + apply Hpack. intros s Hs. apply travel_rules_packing. auto.
    + intros Hin. apply Hout in Hin; [|in_list].
      decompose [or and] Hin; try discriminate; congruence.
    + intros Hin. apply Hout in Hin; [|in_list].
      decompose [or and] Hin; try discriminate; congruence.
    + apply elem_of_app. left. apply travel_rules_advisories. auto.
  - intros Hc Hh. apply Qle_bool_not_iff in Hc. apply Qle_bool_iff in Hh.
    fold (cold self w) in Hc. fold (warm self w) in Hh.
    split_and!.
    + apply Hpack. intros s Hs. apply travel_rules_packing. auto 10.
    + intros Hin. apply Hout in Hin; [|in_list].
      decompose [or and] Hin; try discriminate; congruence.
    + intros Hin. apply Hout in Hin; [|in_list].
      decompose [or and] Hin; try discriminate; congruence.
    + apply elem_of_app. left. apply travel_rules_advisories. auto 10.
  - intros Hc Hh. apply Qle_bool_not_iff in Hc, Hh.
    fold (cold self w) in Hc. fold (warm self w) in Hh.
    split_and!.
    + apply Hpack. intros s Hs. apply travel_rules_packing. auto 10.
    + intros Hin. apply Hout in Hin; [|in_list].
      decompose [or and] Hin; try discriminate; congruence.
    + intros Hin. apply Hout in Hin; [|in_list].
      decompose [or and] Hin; try discriminate; congruence.
    + intros t. destruct (Hextra t) as [Hce Hhe].
      split; intros [Hin|Hin]%elem_of_app; try done;
        apply travel_rules_advisories in Hin;
        decompose [or and] Hin; try discriminate; congruence.
Qed.

Lemma travel_packing_by_temperature_witness :
  ∃ b, get_travel_recommendations init frost_snapshot None = Py.Ok b
       ∧ "Warm jacket" ∈ TravelBundle.packing_list b
       ∧ "Sunscreen" ∉ TravelBundle.packing_list b.
Proof.
  destruct (travel_packing_by_temperature init frost_snapshot None)
    as (b & Hb & Hcold & _).
  exists b. split; [exact Hb|].
  destruct Hcold as (Hall & Hno & _); [vm_compute; discriminate|].
  split; [|exact Hno]. by apply Forall_cons in Hall as [? _].
Defined.

End TravelProperties.

Section TravelConditions.

Import RecommendationEngine Spec SpecMore.

(** X16. The condition rule of the travel evaluator takes the first match among
    clear or sun, storm or thunder, fog or mist, looked for in the condition
    category in lower case.  So a bundle never holds both the storm alert
    and the fog alert, and a category that matches clear or sun gets
    neither, whatever else it matches.  The wind alert is raised exactly
    when the wind is above [wind_warning].  No bundle holds more than three
    alerts. *)
Theorem travel_condition_rule self w fc :
  let description := Py.lower (default "" (Weather.main w)) in
  let clear :=
    Py.contains "clear" description || Py.contains "sun" description in
  let storm :=
    Py.contains "storm" description || Py.contains "thunder" description in
  let fog :=
    Py.contains "fog" description || Py.contains "mist" description in
  ∃ b,
    get_travel_recommendations self w fc = Py.Ok b
    ∧ (length (TravelBundle.alerts b) ≤ 3)%nat
    ∧ (storm_alert ∈ TravelBundle.alerts b ↔ clear = false ∧ storm = true)
    ∧ (fog_alert ∈ TravelBundle.alerts b
       ↔ clear = false ∧ storm = false ∧ fog = true)
    ∧ ¬ (storm_alert ∈ TravelBundle.alerts b
         ∧ fog_alert ∈ TravelBundle.alerts b)
    ∧ ((∃ a, a ∈ TravelBundle.alerts b ∧ is_wind_alert a)
       ↔ (Config.wind_warning (travel_thresholds self)
          < Weather.wind_speed w)%Q).
Proof.
  intros description clear storm fog.
  destruct (travel_bundle self w fc) as (b & extra & Hb & Ha & _).
  exists b. split; [done|]. rewrite Ha.
  assert (Hstorm : storm_alert ∈ (travel_current_rules self w).1.2
                   ↔ clear = false ∧ storm = true).
  { rewrite travel_rules_alerts. split.
    - intros [[Hx _]|[[Hx _]|[[_ ?]|[Hx _]]]]; try done; discriminate Hx.
    - intros [??]. right. right. left. done. }
  assert (Hfog : fog_alert ∈ (travel_current_rules self w).1.2
                 ↔ clear = false ∧ storm = false ∧ fog = true).
  { rewrite travel_rules_alerts. split.
    - intros [[Hx _]|[[Hx _]|[[Hx _]|[_ ?]]]]; try done; discriminate Hx.
    - intros (? & ? & ?). right. right. right. done. }
  split_and!; try done.
  - apply travel_rules_alerts_length.
  - rewrite Hstorm, Hfog. intros [[_ ?] (_ & ? & _)]. congruence.
  - rewrite <- Qltb_iff. fold (gusty self w). split.
    + intros (a & Hin & [x Hx]). apply travel_rules_alerts in Hin.
      destruct Hin as [[-> _]|[[_ ?]|[[-> _]|[-> _]]]]; try done;
        discriminate Hx.
    + intros Hg. exists (wind_alert (Weather.wind_speed w)).
      split; [|by eexists]. apply travel_rules_alerts. auto.
Qed.

(** X17. The suggested times: one for the sunrise and one for the sunset when
    the snapshot carries them, and one more above 30 degrees (early or late
    hours) or below 10 degrees (midday), never both.  Without the two
    timestamps and between 10 and 30 degrees the list is empty. *)
Theorem travel_best_times w fc :
  let times := _get_best_travel_times w fc in
  let temp := Weather.temperature w in
  let heat :=
    "Visit outdoor attractions early morning or late evening to avoid heat" in
  let midday :=
    "Midday (11 AM - 3 PM) will be warmest for outdoor activities" in
  length times
  = (length (option_list (Weather.sunrise w))
     + length (option_list (Weather.sunset w))
     + (if Py.Qltb 30 temp || Py.Qltb temp 10 then 1 else 0))%nat
  ∧ (heat ∈ times ↔ (30 < temp)%Q)
  ∧ (midday ∈ times ↔ (temp <= 30)%Q ∧ (temp < 10)%Q)
  ∧ ¬ (heat ∈ times ∧ midday ∈ times)
  ∧ (times = [] ↔ Weather.sunrise w = None ∧ Weather.sunset w = None
                  ∧ (10 <= temp)%Q ∧ (temp <= 30)%Q).
Proof.
  intros times temp heat midday. subst times temp heat midday.
  rewrite <- !Qltb_iff, <- Qltb_false_iff, <- (Qltb_false_iff _ 10).
  unfold _get_best_travel_times.
  destruct (Weather.sunrise w) as [sunrise|], (Weather.sunset w) as [sunset|],
    (Py.Qltb 30 (Weather.temperature w)),
    (Py.Qltb (Weather.temperature w) 10);
    cbn [app length orb Nat.add option_list];
    (split_and!;
       [ reflexivity
       | split; [try done; try not_in_list|intros; try done; in_list]
       | split; [try not_in_list; try (intros; split; done)
                |intros [??]; try done; in_list]
       | intros [H1 H2]; revert H1 H2; try not_in_list; intros _;
         try not_in_list
       | split; [try done; intros; split_and!; done
                |intros (? & ? & ? & ?); done] ]).
Qed.



End TravelConditions.

(** ** The service and the engine together *)

Section Together.

Import WeatherService RecommendationEngine Spec SpecMore.

(** On an input that is not empty a day count of one or more leaves at
    least one entry. *)
Lemma parse_forecast_nonempty fromtimestamp l days :
  l ≠ [] → 1 <= days →
  ∃ fds, _parse_forecast fromtimestamp l days = Py.Ok fds ∧ fds ≠ [].
Proof.
  intros Hne Hdays.
  destruct (parse_forecast_dates fromtimestamp l days)
    as (fds & k & Hp & Hd & _ & Hk).
  destruct (entry_dates fromtimestamp l) as (_ & Hmem & _).
  exists fds. split; [done|]. intros ->.
  rewrite Hk in Hd by lia.
  destruct l as [|item l]; [done|].
  assert (Hin : date_of fromtimestamp item
                ∈ (sorted (map_to_list
                     (group_by_date fromtimestamp (item :: l)))).*1).
  { apply Hmem. apply list_elem_of_here. }
  destruct ((sorted _).*1) as [|d ds]; [by apply elem_of_nil in Hin|].
  destruct (Z.to_nat days) eqn:Hn; [lia|]. done.
Qed.

(** X20. The forecast that the aggregator builds from a provider list that is
    not empty, for a day count of one or more (the routes ask for 5), is a
    forecast the evaluators take as supplied: on a dry snapshot the
    agriculture evaluator gives exactly one of the upcoming-rain advisory
    and the regular-irrigation task, and the travel evaluator ends its
    advisories with a forecast summary and gives an outlook of poor,
    excellent or fair, never the default good. *)
Theorem forecast_feeds_evaluators fromtimestamp l days self month w :
  l ≠ [] → 1 <= days →
  ∃ fc,
    _parse_forecast fromtimestamp l days = Py.Ok fc
    ∧ truthy (Some fc) = true
    ∧ (¬ (Config.rain_threshold (ag_thresholds self) < rain w)%Q →
       ¬ (0 < rain w)%Q →
       exactly_one_dry_output
         (get_agriculture_recommendations self month w (Some fc)))
    ∧ ∃ b,
        get_travel_recommendations self w (Some fc) = Py.Ok b
        ∧ TravelBundle.travel_outlook b ∈ ["poor"; "excellent"; "fair"]
        ∧ ∃ s, s ∈ forecast_summaries
               ∧ last (TravelBundle.recommendations b) = Some s.
Proof.
  intros Hne Hdays.
  destruct (parse_forecast_nonempty fromtimestamp l days Hne Hdays)
    as (fc & Hp & Hfc).
  exists fc. split; [done|].
  assert (Ht : truthy (Some fc) = true) by by destruct fc.
  split; [done|]. split.
  - intros Hheavy Hlight. to_tests.
    unfold exactly_one_dry_output. rewrite rain_rule_branches.
    rewrite Hheavy, Hlight, Ht.
    destruct (Py.Qltb 5 (upcoming_rain (Some fc))); eauto.
  - destruct (travel_with_forecast self w fc Hfc) as (s & Hs & Hb).
    destruct (analyze_truthy_cases fc Hfc) as (s' & Hs' & Hin).
    rewrite Hs in Hs'. injection Hs' as <-.
    eexists. split; [exact Hb|].
    cbn [TravelBundle.travel_outlook TravelBundle.recommendations].
    rewrite last_snoc.
    rewrite !elem_of_cons, elem_of_nil in Hin.
    destruct Hin as [->|[->|[->|[]]]]; cbn;
      (split; [in_list|]); eexists; (split; [|done]);
      unfold forecast_summaries; in_list.
Qed.

Lemma forecast_feeds_evaluators_witness :
  ∃ fc, _parse_forecast utc_fromtimestamp two_days 5 = Py.Ok fc
        ∧ exactly_one_dry_output
            (get_agriculture_recommendations init 1 dry_snapshot (Some fc)).
Proof.
  destruct (forecast_feeds_evaluators utc_fromtimestamp two_days 5
              init 1 dry_snapshot)
    as (fc & Hp & _ & Hdry & _); [done|done|].
  exists fc. split; [exact Hp|].
  apply Hdry; vm_compute; intros H; discriminate H.
Defined.

(** X21. A snapshot that [_parse_current_weather] builds carries every key the
    engine reads.  So the suggested times open with the sunrise and the
    sunset, followed by at most one more; and when the response has no
    [rain] dictionary the rain of the snapshot is 0, so that with the
    default thresholds the agriculture evaluator takes the dry branch of its
    rain rule. *)
Theorem service_snapshot fromtimestamp data :
  let w := CurrentWeather.read
             (_parse_current_weather fromtimestamp data) in
  (∀ fc, ∃ rest,
     _get_best_travel_times w fc
     = ("Sunrise at "
        +:+ Py.strftime_HM (fromtimestamp (Current.sunrise data))
        +:+ " - Great for photography")
       :: ("Sunset at "
           +:+ Py.strftime_HM (fromtimestamp (Current.sunset data))
           +:+ " - Beautiful evening views")
       :: rest
     ∧ (length rest ≤ 1)%nat)
  ∧ (Current.rain data = None →
     (rain w == 0)%Q
     ∧ (∀ month,
          rain_rule_output
            (get_agriculture_recommendations init month w None) = ([], []))
     ∧ (∀ month fc, fc ≠ [] →
          exactly_one_dry_output
            (get_agriculture_recommendations init month w (Some fc)))).
Proof.
  intros w. split.
  - intros fc. unfold _get_best_travel_times. subst w.
    cbn [CurrentWeather.read Weather.sunrise Weather.sunset
         CurrentWeather.sunrise CurrentWeather.sunset
         _parse_current_weather app].
    branches; eexists; (split; [reflexivity|]); cbn; lia.
  - intros Hnone.
    assert (Hrain : rain w = (0 + 0)%Q).
    { subst w. unfold rain.
      cbn [CurrentWeather.read Weather.rain_1h Weather.rain_3h
           CurrentWeather.rain_1h CurrentWeather.rain_3h
           _parse_current_weather].
      by rewrite Hnone. }
    split; [by rewrite Hrain|]. split.
    + intros month. rewrite rain_rule_branches, Hrain. reflexivity.
    + intros month fc Hfc. unfold exactly_one_dry_output.
      rewrite rain_rule_branches, Hrain.
      assert (Ht : truthy (Some fc) = true) by by destruct fc.
      change (Py.Qltb (Config.rain_threshold (ag_thresholds init)) (0 + 0))
        with false.
      change (Py.Qltb 0 (0 + 0)) with false. rewrite Ht.
      destruct (Py.Qltb 5 (upcoming_rain (Some fc))); eauto.
Qed.

Lemma service_snapshot_witness :
  rain_rule_output
    (get_agriculture_recommendations init 1
       (CurrentWeather.read
          (_parse_current_weather utc_fromtimestamp clear_response)) None)
  = ([], []).
Proof.
  destruct (service_snapshot utc_fromtimestamp clear_response) as [_ Hdry].
  destruct (Hdry eq_refl) as (_ & Hnone & _). apply Hnone.
Defined.

End Together.

Section CaseOfCategory.

Import RecommendationEngine Spec SpecMore.

(** X19. The travel evaluator matches the condition category without regard to
    the case of its ASCII letters: two categories with the same lower-case
    form give the same result. *)
Theorem travel_category_case self w fc category category' :
  Py.lower category = Py.lower category' →
  get_travel_recommendations self (with_main w (Some category)) fc
  = get_travel_recommendations self (with_main w (Some category')) fc.
Proof.
  intros Hlower.
  unfold get_travel_recommendations, travel_current_rules,
    _get_best_travel_times, with_main.
  cbn [Weather.temperature Weather.wind_speed Weather.humidity
       Weather.rain_1h Weather.rain_3h Weather.main Weather.sunrise
       Weather.sunset default from_option id].
  by rewrite Hlower.
Qed.

Lemma travel_category_case_witness :
  get_travel_recommendations init (with_main dry_snapshot (Some "Rain")) None
  = get_travel_recommendations init
      (with_main dry_snapshot (Some "RAIN")) None.
Proof. apply travel_category_case. reflexivity. Defined.

End CaseOfCategory.

(** ** Rounding at the thresholds of the rules *)

Section RoundingInRules.

Import WeatherService RecommendationEngine Spec SpecMore.

(** Sums, a mean and products of floats that differ from the exact
    results: [9.8 + 0.2] is [10.0], [0.1 + 4.9] is [5.0],
    [19.8 + 0.2] is [20.0], [0.1 + 4.1 + 0.8] is below 5, the mean of
    three times [0.1] is above [0.1], and [13.88888888888889 * 3.6] is
    [50.0]. *)
Lemma rounding_examples :
  (Py.add (Py.rnd (98 # 10)) (Py.rnd (2 # 10)) == 10)%Q
  ∧ (Py.add (Py.rnd (1 # 10)) (Py.rnd (49 # 10)) == 5)%Q
  ∧ (Py.sum [Py.rnd (198 # 10); Py.rnd (2 # 10)] == 20)%Q
  ∧ (Py.sum [Py.rnd (1 # 10); Py.rnd (41 # 10); Py.rnd (8 # 10)] < 5)%Q
  ∧ (Py.rnd (1 # 10)
     < mean [Py.rnd (1 # 10); Py.rnd (1 # 10); Py.rnd (1 # 10)])%Q
  ∧ (Py.mul (Py.rnd (1388888888888889 # 100000000000000))
            (Py.rnd (36 # 10)) == 50)%Q.
Proof. vm_compute. split_and!; reflexivity. Qed.

(** With 9.8 mm in the last hour and 0.2 mm in the last three hours the
    rain is the float 10.0, not above the threshold of 10: the agriculture
    evaluator takes the light-rain branch. *)
Lemma rain_rule_at_threshold :
  let w := rain_snapshot (Py.rnd (98 # 10)) (Py.rnd (2 # 10)) in
  rain_rule_output (get_agriculture_recommendations init 1 w None)
  = ([light_rain_text 10], []).
Proof.
  intros w. rewrite rain_rule_branches.
  assert (Hrain : rain w = 10%Q) by (by vm_compute).
  by rewrite Hrain.
Qed.

(** On a dry snapshot a forecast with 0.1 mm and 4.9 mm of rain sums to
    the float 5.0, not above 5: the regular-irrigation task. *)
Lemma dry_rule_at_threshold :
  rain_rule_output
    (get_agriculture_recommendations init 1 dry_snapshot
       (Some [day_of (Py.rnd (1 # 10)) 20 10;
              day_of (Py.rnd (49 # 10)) 20 10]))
  = ([], ["Regular irrigation recommended"]).
Proof.
  rewrite rain_rule_branches.
  set (fc := Some _).
  assert (Hrain : rain dry_snapshot = 0%Q) by (by vm_compute).
  assert (Hahead : upcoming_rain fc = 5%Q) by (by vm_compute).
  by rewrite Hrain, Hahead.
Qed.

(** A forecast with 19.8 mm and 0.2 mm of rain sums to the float 20.0,
    not above 20: the outlook is fair, not poor.  One with 0.1, 4.1 and
    0.8 mm sums to a float below 5: the outlook is excellent. *)
Lemma outlook_at_threshold :
  _analyze_forecast_for_travel
    (Some [day_of (Py.rnd (198 # 10)) 20 10;
           day_of (Py.rnd (2 # 10)) 20 10])
  = Py.Ok fair_summary
  ∧ _analyze_forecast_for_travel
      (Some [day_of (Py.rnd (1 # 10)) 20 10;
             day_of (Py.rnd (41 # 10)) 20 10;
             day_of (Py.rnd (8 # 10)) 20 10])
    = Py.Ok excellent_summary.
Proof. split; by vm_compute. Qed.

(** With 0.1 mm and 4.9 mm the rain is the float 5.0, not above the
    warning level of 5: the travel evaluator raises no rain alert under
    the category Clouds. *)
Lemma travel_rain_at_threshold :
  (travel_current_rules init
     (rain_snapshot (Py.rnd (1 # 10)) (Py.rnd (49 # 10)))).1.2 = [].
Proof. by vm_compute. Qed.

(** Three readings of 0.1 degrees on one date: the mean that the
    aggregator returns is above the largest temperature. *)
Lemma mean_above_max :
  ∃ fd,
    _parse_forecast utc_fromtimestamp
      [item_with (Py.rnd (1 # 10)) 50; item_with (Py.rnd (1 # 10)) 50;
       item_with (Py.rnd (1 # 10)) 50] 5
    = Py.Ok [fd]
    ∧ (ForecastDay.temp_max fd < ForecastDay.temp_avg fd)%Q.
Proof. eexists. split; [by vm_compute|]. vm_compute. reflexivity. Qed.

End RoundingInRules.
